(** * ai-meeting-summarizer: the request handlers of [server.js]

    A shallow embedding of the Express server of [src/server.js]: the JSON
    values the handlers receive and build, the two route handlers with
    their outbound calls to the Groq chat-completion endpoint and to the
    Resend mail API, and the rate limiter mounted in front of [/api/]. *)

From Stdlib Require Import ZArith NArith List String Ascii Bool Lia DecimalString DecimalZ DecimalPos.
From Stdlib Require Import Floats.PrimFloat.
From stdpp Require Import gmap list option.

Set Warnings "-register-all,-inexact-float".
Local Open Scope string_scope.
Local Open Scope list_scope.

(** * JavaScript values *)

Module Js.

(** A JavaScript string is a sequence of UTF-16 code units. *)
Abbreviation jsstring := (list N).

(** The code units of an ASCII literal of the source. *)
Definition lit (s : string) : jsstring :=
  map N_of_ascii (list_ascii_of_string s).

(** The line feed written [\n] in the source's template literals. *)
Definition LF : N := 10%N.

(** The values a parsed JSON (or url-encoded) body, a provider's answer and
    an object literal of the source are made of.  Numbers are IEEE 754
    binary64; an object is its table of own properties. *)
Inductive JsVal : Type :=
| JUndefined
| JNull
| JBool (b : bool)
| JNum (x : float)
| JStr (s : jsstring)
| JArr (xs : list JsVal)
| JObj (props : gmap jsstring JsVal).

(** What a [throw], a rejected promise or the runtime raises. *)
Inductive Thrown : Type :=
| Error_ (message : jsstring)   (* new Error(message) *)
| TypeError                     (* raised by the runtime itself *)
| Value (v : JsVal).            (* any other thrown or rejected value *)

(** An object literal [{ k1: v1, ..., kn: vn }]. *)
Definition obj (kvs : list (string * JsVal)) : JsVal :=
  JObj (list_to_map (map (fun kv => (lit (fst kv), snd kv)) kvs)).

(** ECMAScript ToBoolean: [undefined], [null], [false], [+0], [-0], [NaN]
    and the empty string are falsy, everything else is truthy. *)
Definition ToBoolean (v : JsVal) : bool :=
  match v with
  | JUndefined | JNull => false
  | JBool b => b
  | JNum x => negb (is_zero x || is_nan x)
  | JStr s => match s with [] => false | _ :: _ => true end
  | JArr _ | JObj _ => true
  end.

(** A string that may be [undefined]: a setting of [process.env], an
    optional argument. *)
Definition optional (v : option jsstring) : JsVal :=
  match v with
  | Some s => JStr s
  | None => JUndefined
  end.

(** [a || b] *)
Definition or_else (a b : JsVal) : JsVal :=
  if ToBoolean a then a else b.

Definition nullish (v : JsVal) : bool :=
  match v with JUndefined | JNull => true | _ => false end.

(** The own property [k] of a value, for the names the server reads
    ([transcript], [prompt], [email], [summary], [choices], [message],
    [content], [usage], [prompt_tokens], [completion_tokens], [error],
    [data], [id]): only an object carries them; none of them is inherited
    from a prototype, so arrays, strings, numbers and booleans have none. *)
Definition own (v : JsVal) (k : jsstring) : option JsVal :=
  match v with
  | JObj props => props !! k
  | _ => None
  end.

(** The own property [0]: the first element of an array, the first code
    unit of a string, the property named ["0"] of an object. *)
Definition own0 (v : JsVal) : option JsVal :=
  match v with
  | JArr xs => head xs
  | JStr s => (fun c => JStr [c]) <$> head s
  | JObj props => props !! lit "0"
  | _ => None
  end.

(** [v.k]: a TypeError on [undefined] and [null], otherwise the own
    property or [undefined]. *)
Definition get (v : JsVal) (k : string) : Thrown + JsVal :=
  if nullish v then inl TypeError
  else inr (default JUndefined (own v (lit k))).

(** [v?.k] *)
Definition get_opt (v : JsVal) (k : string) : JsVal :=
  if nullish v then JUndefined
  else default JUndefined (own v (lit k)).

(** [v?.[0]] *)
Definition get0_opt (v : JsVal) : JsVal :=
  if nullish v then JUndefined
  else default JUndefined (own0 v).

(** ECMAScript WhiteSpace and LineTerminator code points, the ones
    [String.prototype.trim] strips. *)
Definition is_ws (c : N) : bool :=
  ((9 <=? c) && (c <=? 13) || (c =? 32) || (c =? 160) || (c =? 5760)
   || (8192 <=? c) && (c <=? 8202) || (c =? 8232) || (c =? 8233)
   || (c =? 8239) || (c =? 8287) || (c =? 12288) || (c =? 65279))%N.

Fixpoint trimStart (s : jsstring) : jsstring :=
  match s with
  | [] => []
  | c :: r => if is_ws c then trimStart r else s
  end.

Definition trimEnd (s : jsstring) : jsstring := rev (trimStart (rev s)).

Definition trim (s : jsstring) : jsstring := trimEnd (trimStart s).

(** [v.trim()]: only a string has the method.  On [undefined] and [null]
    the property read throws; on any other value [v.trim] is [undefined]
    (or, for an object with an own [trim] key, a JSON value), which is not
    callable. *)
Definition call_trim (v : JsVal) : Thrown + JsVal :=
  match v with
  | JStr s => inr (JStr (trim s))
  | _ => inl TypeError
  end.

(** The decimal rendering of an integer, as Number::toString gives it for
    an HTTP status. *)
Definition decimal (z : Z) : jsstring :=
  lit (NilZero.string_of_int (Z.to_int z)).

Section ToString.

(** ECMAScript ToString on numbers, arrays and objects (Number::toString
    and ToPrimitive with its user-visible [toString]/[valueOf] lookups,
    which can throw) is the platform's. *)
Variable ToString_platform : JsVal -> Thrown + jsstring.

(** ToString as a template literal applies it to a substitution. *)
Definition ToString (v : JsVal) : Thrown + jsstring :=
  match v with
  | JStr s => inr s
  | JUndefined => inr (lit "undefined")
  | JNull => inr (lit "null")
  | JBool true => inr (lit "true")
  | JBool false => inr (lit "false")
  | JNum _ | JArr _ | JObj _ => ToString_platform v
  end.

End ToString.

End Js.

Import Js.

(** * Effects: outbound calls, the console, exceptions *)

Module Eff.

(** The second argument of [fetch].  [body] holds the value the source
    passes to [JSON.stringify]. *)
Record RequestInit : Type := {
  method : jsstring;
  headers : list (jsstring * jsstring);
  body : JsVal
}.

(** A [fetch] response: its status, and what awaiting [res.text()] and
    [res.json()] gives. *)
Record Response : Type := {
  status : Z;
  text : Thrown + jsstring;
  json : Thrown + JsVal
}.

(** [res.ok]: the status is in the range 200-299. *)
Definition ok (r : Response) : bool :=
  ((200 <=? status r) && (status r <=? 299))%Z.

(** A client built by [new Resend(key)]. *)
Record Resend : Type := { apiKey : JsVal }.

Inductive Console : Type := console_log | console_warn | console_error.

Inductive Logged : Type :=
| LVal (v : JsVal)
| LErr (e : Thrown).

(** An [async] function body: it returns, throws, awaits [fetch], awaits
    [resend.emails.send], or writes to the console and goes on. *)
Inductive Prog (A : Type) : Type :=
| Ret (a : A)
| Throw (e : Thrown)
| Await_fetch (url : jsstring) (init : RequestInit)
    (k : Thrown + Response -> Prog A)
| Await_send (client : Resend) (mail : JsVal)
    (k : Thrown + JsVal -> Prog A)
| Write_console (c : Console) (args : list Logged) (k : Prog A).

Arguments Ret {A} a.
Arguments Throw {A} e.
Arguments Await_fetch {A} url init k.
Arguments Await_send {A} client mail k.
Arguments Write_console {A} c args k.

Fixpoint bind {A B : Type} (p : Prog A) (f : A -> Prog B) : Prog B :=
  match p with
  | Ret a => f a
  | Throw e => Throw e
  | Await_fetch u i k => Await_fetch u i (fun r => bind (k r) f)
  | Await_send c m k => Await_send c m (fun r => bind (k r) f)
  | Write_console c a k => Write_console c a (bind k f)
  end.

(** [try { p } catch (err) { h err }] *)
Fixpoint try_catch {A : Type} (p : Prog A) (h : Thrown -> Prog A) : Prog A :=
  match p with
  | Ret a => Ret a
  | Throw e => h e
  | Await_fetch u i k => Await_fetch u i (fun r => try_catch (k r) h)
  | Await_send c m k => Await_send c m (fun r => try_catch (k r) h)
  | Write_console c a k => Write_console c a (try_catch k h)
  end.

(** An expression that may throw, or an awaited promise that is already
    settled. *)
Definition lift {A : Type} (r : Thrown + A) : Prog A :=
  match r with
  | inl e => Throw e
  | inr a => Ret a
  end.

Definition fetch (url : jsstring) (init : RequestInit) : Prog Response :=
  Await_fetch url init lift.

Definition emails_send (client : Resend) (mail : JsVal) : Prog JsVal :=
  Await_send client mail lift.

Definition console (c : Console) (args : list Logged) : Prog unit :=
  Write_console c args (Ret tt).

(** What a run leaves behind. *)
Inductive Event : Type :=
| EvFetch (url : jsstring) (init : RequestInit)
| EvSend (client : Resend) (mail : JsVal)
| EvConsole (c : Console) (args : list Logged).

(** The outside world: how the network answers a [fetch] and how the mail
    provider answers a send. *)
Record World : Type := {
  network : jsstring -> RequestInit -> Thrown + Response;
  provider : Resend -> JsVal -> Thrown + JsVal
}.

Fixpoint run {A : Type} (w : World) (p : Prog A)
  : list Event * (Thrown + A) :=
  match p with
  | Ret a => ([], inr a)
  | Throw e => ([], inl e)
  | Await_fetch u i k =>
      let r := run w (k (network w u i)) in (EvFetch u i :: r.1, r.2)
  | Await_send c m k =>
      let r := run w (k (provider w c m)) in (EvSend c m :: r.1, r.2)
  | Write_console c a k =>
      let r := run w k in (EvConsole c a :: r.1, r.2)
  end.

End Eff.

Import Eff.

Declare Scope prog_scope.
Delimit Scope prog_scope with prog.
Notation "x <- p ;; q" := (bind p (fun x => q))
  (at level 100, p at next level, right associativity) : prog_scope.
Notation "p ;;; q" := (bind p (fun _ => q))
  (at level 100, right associativity) : prog_scope.

(** * The server *)

(** [process.env]: each setting is a string or absent. *)
Record ProcessEnv : Type := {
  env_PORT : option jsstring;
  env_GROQ_API_KEY : option jsstring;
  env_GROQ_MODEL : option jsstring;
  env_RESEND_API_KEY : option jsstring;
  env_FROM_EMAIL : option jsstring
}.

(** What a handler hands to Express: [res.status(code).json(body)]. *)
Record HttpResponse : Type := {
  statusCode : Z;
  payload : JsVal
}.

(** The object [callGroq] returns. *)
Record GroqResult : Type := {
  content : JsVal;
  promptTokens : JsVal;
  completionTokens : JsVal
}.

Section Server.

Local Open Scope prog_scope.

Variable env : ProcessEnv.
Variable ToString_platform : JsVal -> Thrown + jsstring.

(** --- Config --- *)
Definition PORT : JsVal := or_else (optional (env_PORT env)) (JNum 3000).
Definition GROQ_API_KEY : JsVal := optional (env_GROQ_API_KEY env).
Definition GROQ_MODEL : JsVal :=
  or_else (optional (env_GROQ_MODEL env)) (JStr (lit "llama-3.1-8b-instant")).
Definition RESEND_API_KEY : JsVal := optional (env_RESEND_API_KEY env).
Definition FROM_EMAIL : JsVal := optional (env_FROM_EMAIL env).

(** --- LLM helper --- *)
Definition SYSTEM_PROMPT : jsstring :=
  lit "You are a precise meeting notes summarizer.".

(** The template literal of [buildUserPrompt]: its two substitutions are
    converted left to right. *)
Definition buildUserPrompt (transcript extra : JsVal) : Thrown + jsstring :=
  match ToString ToString_platform transcript with
  | inl e => inl e
  | inr t =>
      match ToString ToString_platform (or_else extra (JStr [])) with
      | inl e => inl e
      | inr x =>
          inr (lit "Transcript:" ++ [LF] ++ t ++ [LF; LF]
               ++ lit "Additional instruction from user:" ++ [LF] ++ x)
      end
  end.

Definition groq_url : jsstring :=
  lit "https://api.groq.com/openai/v1/chat/completions".

Definition groq_init (authorization : jsstring) (messages : JsVal)
  : RequestInit :=
  {| method := lit "POST";
     headers := [ (lit "Authorization", authorization);
                  (lit "Content-Type", lit "application/json") ];
     body := obj [ ("model", GROQ_MODEL);
                   ("messages", messages);
                   ("temperature", JNum 0.2);
                   ("max_tokens", JNum 1500) ] |}.

(** The request [callGroq] issues: [GROQ_API_KEY] is a string or
    [undefined], which the template literal of the header prints as such. *)
Definition groq_request (messages : JsVal) : RequestInit :=
  groq_init
    (lit "Bearer " ++ default (lit "undefined") (env_GROQ_API_KEY env))
    messages.

Definition callGroq (messages : JsVal) : Prog GroqResult :=
  key <- lift (ToString ToString_platform GROQ_API_KEY) ;;
  res <- fetch groq_url (groq_init (lit "Bearer " ++ key) messages) ;;
  if negb (ok res) then
    txt <- lift (text res) ;;
    Throw (Error_ (lit "Groq error " ++ decimal (status res)
                   ++ lit ": " ++ txt))
  else
    data <- lift (json res) ;;
    choices <- lift (get data "choices") ;;
    let content :=
      or_else (get_opt (get_opt (get0_opt choices) "message") "content")
              (JStr []) in
    usage <- lift (get data "usage") ;;
    let promptTokens :=
      or_else (get_opt usage "prompt_tokens") (JNum 0) in
    usage' <- lift (get data "usage") ;;
    let completionTokens :=
      or_else (get_opt usage' "completion_tokens") (JNum 0) in
    Ret {| content := content;
           promptTokens := promptTokens;
           completionTokens := completionTokens |}.

Definition res_status_json (code : Z) (b : JsVal) : Prog HttpResponse :=
  Ret {| statusCode := code; payload := b |}.

Definition res_json (b : JsVal) : Prog HttpResponse :=
  res_status_json 200 b.

(** [!v || !v.trim()] *)
Definition missing_or_blank (v : JsVal) : Prog bool :=
  if negb (ToBoolean v) then Ret true
  else
    t <- lift (call_trim v) ;;
    Ret (negb (ToBoolean t)).

(** The message list the summarize handler builds. *)
Definition messages_of (transcript prompt : JsVal) : Thrown + JsVal :=
  match buildUserPrompt transcript prompt with
  | inl e => inl e
  | inr user =>
      inr (JArr [ obj [ ("role", JStr (lit "system"));
                        ("content", JStr SYSTEM_PROMPT) ];
                  obj [ ("role", JStr (lit "user"));
                        ("content", JStr user) ] ])
  end.

(** --- API: summarize --- *)
Definition post_api_summarize (req_body : JsVal) : Prog HttpResponse :=
  try_catch
    (let b := or_else req_body (obj []) in
     transcript <- lift (get b "transcript") ;;
     prompt <- lift (get b "prompt") ;;
     bad <- missing_or_blank transcript ;;
     if bad : bool then
       res_status_json 400
         (obj [ ("error", JStr (lit "Transcript is required")) ])
     else
       messages <- lift (messages_of transcript prompt) ;;
       r <- callGroq messages ;;
       res_json
         (obj [ ("summary", content r);
                ("model", GROQ_MODEL);
                ("tokens", obj [ ("prompt", promptTokens r);
                                 ("completion", completionTokens r) ]) ]))
    (fun err =>
       console console_error [LErr err] ;;;
       res_status_json 500
         (obj [ ("error", JStr (lit "Failed to summarize")) ])).

(** --- Email via Resend --- *)
Definition resend : option Resend :=
  if ToBoolean RESEND_API_KEY
  then Some {| apiKey := RESEND_API_KEY |}
  else None.

(** The code units of the marks that open two console lines. *)
Definition check_mark : N := 9989%N.
Definition cross_mark : N := 10060%N.

(** The argument of [resend.emails.send]; [summary] is what the template
    literal of the [html] field prints for the summary. *)
Definition mail (email : JsVal) (summary : jsstring) : JsVal :=
  obj [ ("from", FROM_EMAIL);
        ("to", JArr [email]);
        ("subject", JStr (lit "Meeting Summary"));
        ("html", JStr (lit "<div>" ++ summary ++ lit "</div>")) ].

Definition post_api_send_email (req_body : JsVal) : Prog HttpResponse :=
  try_catch
    (console console_log
       [LVal (JStr (lit "Incoming request body:")); LVal req_body] ;;;
     let b := or_else req_body (obj []) in
     email <- lift (get b "email") ;;
     summary <- lift (get b "summary") ;;
     if negb (ToBoolean email) then
       res_status_json 400
         (obj [ ("error", JStr (lit "Recipient email required")) ])
     else
       bad <- missing_or_blank summary ;;
       if bad : bool then
         res_status_json 400
           (obj [ ("error", JStr (lit "Summary content required")) ])
       else
         match resend with
         | Some client =>
             console console_log
               [LVal (JStr (check_mark
                            :: lit " Sending email via Resend..."))] ;;;
             html <- lift (ToString ToString_platform summary) ;;
             out <- emails_send client (mail email html) ;;
             console console_log
               [LVal (JStr (lit "Resend response:")); LVal out] ;;;
             err <- lift (get out "error") ;;
             if ToBoolean err then Throw (Value err)
             else
               data <- lift (get out "data") ;;
               res_json
                 (obj [ ("ok", JBool true);
                        ("id", or_else (get_opt data "id")
                                       (JStr (lit "sent"))) ])
         | None =>
             res_status_json 500
               (obj [ ("error", JStr (lit "Email service not configured")) ])
         end)
    (fun err =>
       console console_error
         [LVal (JStr (cross_mark :: lit " Failed to send email:"));
          LErr err] ;;;
       res_status_json 500
         (obj [ ("error", JStr (lit "Failed to send email")) ])).

End Server.

(** * The rate limiter in front of [/api/] *)

(** A client's counter: the requests counted in its current window, and
    the time (in milliseconds) the window ends. *)
Record Counter : Type := {
  totalHits : nat;
  resetTime : Z
}.

(** Modelled from the spec: the middleware that [rateLimit] builds belongs
    to the [express-rate-limit] package, whose code is not in [src/].  The
    spec describes a fixed-window counter per client key: the counter is
    created by the first request of a key, counts the requests of the
    window of [windowMs] milliseconds that this request opens, and expires
    with the window; a request is let through while the count stays within
    [max]. *)
Definition rateLimit (windowMs : Z) (max : nat)
  (store : gmap jsstring Counter) (key : jsstring) (now : Z)
  : gmap jsstring Counter * bool :=
  let fresh := {| totalHits := 1; resetTime := (now + windowMs)%Z |} in
  let c :=
    match store !! key with
    | Some c =>
        if (now <? resetTime c)%Z
        then {| totalHits := S (totalHits c); resetTime := resetTime c |}
        else fresh
    | None => fresh
    end in
  (<[key := c]> store, (totalHits c <=? max)%nat).

(** --- Rate limit --- *)
Definition limiter := rateLimit (60 * 1000) 20.

(** Modelled from the spec: the answer to a request over the quota.  The
    spec fixes its status only. *)
Definition too_many_requests : HttpResponse :=
  {| statusCode := 429; payload := JUndefined |}.

Inductive Route : Type := api_summarize | api_send_email.

(** A request to one of the two API routes: the client key the limiter
    counts it under, its arrival time, and its parsed body. *)
Record Request : Type := {
  ip : jsstring;
  arrival : Z;
  route : Route;
  req_body : JsVal
}.

Section App.

Variable env : ProcessEnv.
Variable ToString_platform : JsVal -> Thrown + jsstring.

Definition handler (req : Request) : Prog HttpResponse :=
  match route req with
  | api_summarize => post_api_summarize env ToString_platform (req_body req)
  | api_send_email => post_api_send_email env ToString_platform (req_body req)
  end.

(** [app.use('/api/', limiter)] stands before both routes. *)
Definition app (store : gmap jsstring Counter) (req : Request)
  : gmap jsstring Counter * Prog HttpResponse :=
  let lim := limiter store (ip req) (arrival req) in
  (lim.1, if lim.2 then handler req else Ret too_many_requests).

(** The answers to a sequence of requests, in order. *)
Fixpoint serve (store : gmap jsstring Counter) (reqs : list Request)
  : list (Prog HttpResponse) :=
  match reqs with
  | [] => []
  | req :: rest =>
      let step := app store req in
      step.2 :: serve step.1 rest
  end.

End App.

(** * Following a path of own properties *)

(** One step down a JSON value: into the property of a name, or into the
    element at index 0. *)
Inductive Step : Type :=
| Key (k : string)
| First.

(** The value at the end of a path of own properties, when every step of
    the path is there. *)
Fixpoint at_path (v : JsVal) (path : list Step) : option JsVal :=
  match path with
  | [] => Some v
  | Key k :: rest =>
      match own v (lit k) with
      | Some v' => at_path v' rest
      | None => None
      end
  | First :: rest =>
      match own0 v with
      | Some v' => at_path v' rest
      | None => None
      end
  end.

(** The value found when it is there and truthy, a default otherwise. *)
Definition found_or (found : option JsVal) (d : JsVal) : JsVal :=
  match found with
  | Some v => if ToBoolean v then v else d
  | None => d
  end.

(** * Sample settings, requests and worlds *)

Definition sample_env : ProcessEnv :=
  {| env_PORT := None;
     env_GROQ_API_KEY := Some (lit "gsk_sample");
     env_GROQ_MODEL := None;
     env_RESEND_API_KEY := Some (lit "re_sample");
     env_FROM_EMAIL := Some (lit "notes@example.com") |}.

(** The same settings without the mail provider's key. *)
Definition sample_env_no_mail : ProcessEnv :=
  {| env_PORT := None;
     env_GROQ_API_KEY := Some (lit "gsk_sample");
     env_GROQ_MODEL := None;
     env_RESEND_API_KEY := None;
     env_FROM_EMAIL := Some (lit "notes@example.com") |}.

(** What the platform prints for a plain object. *)
Definition sample_ToString (v : JsVal) : Thrown + jsstring :=
  inr (lit "[object Object]").

(** A world whose network answers every request with [res] and whose mail
    provider settles every send with [out]. *)
Definition world_of (res : Thrown + Response) (out : Thrown + JsVal) : World :=
  {| network := fun _ _ => res; provider := fun _ _ => out |}.

Definition response_of (st : Z) (raw : jsstring) (parsed : Thrown + JsVal)
  : Response :=
  {| status := st; text := inr raw; json := parsed |}.

(** A world in which nothing answers. *)
Definition offline : World := world_of (inl TypeError) (inl TypeError).

Definition sample_messages : JsVal :=
  JArr [ obj [ ("role", JStr (lit "system"));
               ("content", JStr (lit "You are a precise meeting notes summarizer.")) ];
         obj [ ("role", JStr (lit "user"));
               ("content",
                JStr (lit "Transcript:" ++ [LF] ++ lit "Standup notes"
                      ++ [LF; LF] ++ lit "Additional instruction from user:"
                      ++ [LF] ++ lit "Bullets")) ] ].

Definition sample_summarize_body : JsVal :=
  obj [ ("transcript", JStr (lit "Standup notes"));
        ("prompt", JStr (lit "Bullets")) ].

(** A completion with content "X" and usage 10/5. *)
Definition sample_completion : JsVal :=
  obj [ ("choices",
         JArr [ obj [ ("message", obj [ ("content", JStr (lit "X")) ]) ] ]);
        ("usage", obj [ ("prompt_tokens", JNum 10);
                        ("completion_tokens", JNum 5) ]) ].

Definition sample_email_body : JsVal :=
  obj [ ("email", JStr (lit "a@b.com")); ("summary", JStr (lit "Notes")) ].

(** What the provider settles a send with: a message id and no error. *)
Definition sample_sent : JsVal :=
  obj [ ("data", obj [ ("id", JStr (lit "msg_1")) ]); ("error", JNull) ].

(** A request of the client 203.0.113.7, [ms] milliseconds into a window. *)
Definition sample_request (ms : Z) : Request :=
  {| ip := lit "203.0.113.7";
     arrival := ms;
     route := api_summarize;
     req_body := obj [ ("transcript", JStr []) ] |}.

(** The trace of the first thing the send-email handler does: it logs the
    body it received. *)
Definition incoming (req_body : JsVal) : Event :=
  EvConsole console_log
    [LVal (JStr (lit "Incoming request body:")); LVal req_body].


(** The status each answer ends with, [None] for an answer that throws. *)
Definition statuses (w : World) (answers : list (Prog HttpResponse))
  : list (option Z) :=
  map (fun p => match (run w p).2 with
                | inr resp => Some (statusCode resp)
                | inl _ => None
                end) answers.

(** * Start-up *)

(** The code units of the warning sign that opens the two start-up
    warnings. *)
Definition warning_sign : jsstring := [9888%N; 65039%N].

Section Startup.

Local Open Scope prog_scope.

Variable env : ProcessEnv.

(** The two checks the module runs when it is loaded, right after the
    configuration is read. *)
Definition startup_warnings : Prog unit :=
  (if negb (ToBoolean (GROQ_API_KEY env))
   then console console_warn
          [LVal (JStr (warning_sign ++ lit " Missing GROQ_API_KEY"))]
   else Ret tt) ;;;
  (if negb (ToBoolean (FROM_EMAIL env))
   then console console_warn
          [LVal (JStr (warning_sign
                       ++ lit " Missing FROM_EMAIL (for email sending)"))]
   else Ret tt).

End Startup.

(** * Reading traces and answers *)

(** The text of a string whose code units are all below 256. *)
Definition unlit (s : jsstring) : string :=
  string_of_list_ascii (map ascii_of_N s).

(** The integer that a decimal numeral stands for: an optional minus sign
    and digits, read as [Number] reads them. *)
Definition read_decimal (s : jsstring) : option Z :=
  option_map Z.of_int (NilZero.int_of_string (unlit s)).

Definition is_fetch (e : Event) : bool :=
  match e with EvFetch _ _ => true | _ => false end.

Definition is_send (e : Event) : bool :=
  match e with EvSend _ _ => true | _ => false end.

Definition is_error_log (e : Event) : bool :=
  match e with EvConsole console_error _ => true | _ => false end.

(** The answer [res.status(code).json({ error: message })]. *)
Definition error_response (code : Z) (message : string) : HttpResponse :=
  {| statusCode := code; payload := obj [ ("error", JStr (lit message)) ] |}.

(** A setting of [process.env] that is there and not empty. *)
Definition is_set (v : option jsstring) : bool :=
  match v with
  | Some (_ :: _) => true
  | _ => false
  end.

(** The text between the transcript and the extra instruction in the user
    prompt. *)
Definition instruction_heading : jsstring :=
  [LF; LF] ++ lit "Additional instruction from user:" ++ [LF].

(** The console lines of the send-email handler around the provider
    call. *)
Definition sending : Event :=
  EvConsole console_log
    [LVal (JStr (check_mark :: lit " Sending email via Resend..."))].

Definition resend_response (out : JsVal) : Event :=
  EvConsole console_log [LVal (JStr (lit "Resend response:")); LVal out].

Definition send_failed (err : Thrown) : Event :=
  EvConsole console_error
    [LVal (JStr (cross_mark :: lit " Failed to send email:")); LErr err].

(** A platform conversion for the examples: a plain object prints as
    [[object Object]], unless it has an own [toString] property, which as
    a JSON value is not callable and makes the conversion throw. *)
Definition sample_ToString_strict (v : JsVal) : Thrown + jsstring :=
  match own v (lit "toString") with
  | Some _ => inl TypeError
  | None => inr (lit "[object Object]")
  end.

(** The sample settings without the LLM provider's key. *)
Definition sample_env_no_key : ProcessEnv :=
  {| env_PORT := None;
     env_GROQ_API_KEY := None;
     env_GROQ_MODEL := None;
     env_RESEND_API_KEY := Some (lit "re_sample");
     env_FROM_EMAIL := Some (lit "notes@example.com") |}.

(** * Properties *)

(** ** Trimming *)

Lemma trimStart_nil_iff (s : jsstring) :
  trimStart s = [] <-> forallb is_ws s = true.
Proof.
  induction s as [|c r IH]; simpl; [tauto|].
  destruct (is_ws c); simpl; [exact IH|].
  split; intros H; discriminate H.
Qed.

(** A string trims to the empty string exactly when all its code units
    are white space. *)
Lemma trim_nil_iff (s : jsstring) :
  trim s = [] <-> forallb is_ws s = true.
Proof.
  unfold trim, trimEnd. split.
  - intros H. apply trimStart_nil_iff.
    apply (f_equal (@rev N)) in H. rewrite rev_involutive in H.
    simpl in H. apply trimStart_nil_iff in H.
    rewrite forallb_forall in H.
    destruct (trimStart s) as [|c r] eqn:E; [reflexivity|].
    assert (Hc : is_ws c = true) by (apply H, in_rev; rewrite rev_involutive; left; reflexivity).
    clear H. revert E. clear -Hc.
    induction s as [|d s IH]; simpl; [discriminate|].
    destruct (is_ws d) eqn:Ed; [exact IH|].
    intros [= -> _]. congruence.
  - intros H. apply trimStart_nil_iff in H. rewrite H. reflexivity.
Qed.

(** ** Reading the request body *)

Arguments obj : simpl never.
Arguments lit : simpl never.
Arguments decimal : simpl never.

(** [const { k } = req.body || {}] never throws: it reads the own property
    [k] of the body, or [undefined]. *)
Lemma get_body (req_body : JsVal) (k : string) :
  get (or_else req_body (obj [])) k
  = inr (default JUndefined (own req_body (lit k))).
Proof.
  unfold or_else, get.
  destruct (ToBoolean req_body) eqn:E.
  - destruct req_body; try discriminate E; reflexivity.
  - destruct req_body; try discriminate E; reflexivity.
Qed.

(** ** Running programs *)

Lemma run_bind {A B : Type} (w : World) (p : Prog A) (f : A -> Prog B) :
  run w (bind p f)
  = match (run w p).2 with
    | inr a => ((run w p).1 ++ (run w (f a)).1, (run w (f a)).2)
    | inl e => ((run w p).1, inl e)
    end.
Proof.
  induction p as [a|e|u i k IH|c m k IH|c a k IH]; simpl.
  - destruct (run w (f a)); reflexivity.
  - reflexivity.
  - rewrite IH. destruct (run w (k (network w u i))).2; reflexivity.
  - rewrite IH. destruct (run w (k (provider w c m))).2; reflexivity.
  - rewrite IH. destruct (run w k).2; reflexivity.
Qed.

Lemma run_try_catch {A : Type} (w : World) (p : Prog A)
  (h : Thrown -> Prog A) :
  run w (try_catch p h)
  = match (run w p).2 with
    | inr a => ((run w p).1, inr a)
    | inl e => ((run w p).1 ++ (run w (h e)).1, (run w (h e)).2)
    end.
Proof.
  induction p as [a|e|u i k IH|c m k IH|c a k IH]; simpl.
  - reflexivity.
  - destruct (run w (h e)); reflexivity.
  - rewrite IH. destruct (run w (k (network w u i))).2; reflexivity.
  - rewrite IH. destruct (run w (k (provider w c m))).2; reflexivity.
  - rewrite IH. destruct (run w k).2; reflexivity.
Qed.

(** ** Validation *)

(** On a string, [!v || !v.trim()] holds exactly when the string is all
    white space. *)
Lemma missing_or_blank_string (s : jsstring) :
  missing_or_blank (JStr s) = Ret (forallb is_ws s).
Proof.
  unfold missing_or_blank. destruct s as [|c r]; [reflexivity|].
  simpl ToBoolean. simpl negb. cbv iota. simpl call_trim. simpl bind.
  f_equal.
  destruct (forallb is_ws (c :: r)) eqn:E.
  - apply trim_nil_iff in E. rewrite E. reflexivity.
  - destruct (trim (c :: r)) eqn:T; [|reflexivity].
    apply trim_nil_iff in T. congruence.
Qed.

(** On a truthy value that is not a string, [v.trim()] throws. *)
Lemma missing_or_blank_not_string (v : JsVal) :
  ToBoolean v = true -> (forall s, v <> JStr s) ->
  missing_or_blank v = Throw TypeError.
Proof.
  intros Ht Hs. unfold missing_or_blank. rewrite Ht. simpl.
  destruct v; try reflexivity. destruct (Hs s). reflexivity.
Qed.

(** ** Configuration *)

(** The model identifier is the configured one when it is set and not
    empty, and the preset otherwise. *)
Lemma GROQ_MODEL_configured (env : ProcessEnv) (m : jsstring) :
  env_GROQ_MODEL env = Some m -> m <> [] -> GROQ_MODEL env = JStr m.
Proof.
  intros H Hm. unfold GROQ_MODEL. rewrite H.
  destruct m; [congruence|reflexivity].
Qed.

Lemma GROQ_MODEL_preset (env : ProcessEnv) :
  env_GROQ_MODEL env = None \/ env_GROQ_MODEL env = Some [] ->
  GROQ_MODEL env = JStr (lit "llama-3.1-8b-instant").
Proof. unfold GROQ_MODEL. intros [-> | ->]; reflexivity. Qed.

(** ** The LLM client *)

Lemma ToString_GROQ_API_KEY (env : ProcessEnv)
  (ToString_platform : JsVal -> Thrown + jsstring) :
  ToString ToString_platform (GROQ_API_KEY env)
  = inr (default (lit "undefined") (env_GROQ_API_KEY env)).
Proof. unfold GROQ_API_KEY. destruct (env_GROQ_API_KEY env); reflexivity. Qed.

(** [v?.k] and [v?.[0]] read the own property, or give [undefined]. *)
Lemma get_opt_own (v : JsVal) (k : string) :
  get_opt v k = default JUndefined (own v (lit k)).
Proof. destruct v; reflexivity. Qed.

Lemma get0_opt_own (v : JsVal) : get0_opt v = default JUndefined (own0 v).
Proof. destruct v; reflexivity. Qed.

Lemma get_own (v : JsVal) (k : string) :
  nullish v = false -> get v k = inr (default JUndefined (own v (lit k))).
Proof. intros H. unfold get. rewrite H. reflexivity. Qed.

(** [a || d] on a value read along a path. *)
Lemma or_else_default (found : option JsVal) (d : JsVal) :
  or_else (default JUndefined found) d = found_or found d.
Proof. destruct found; reflexivity. Qed.

Section LlmClient.

Variable env : ProcessEnv.
Variable ToString_platform : JsVal -> Thrown + jsstring.
Variable w : World.

(** Every call starts with the one request to the completion endpoint. *)
Lemma run_callGroq (messages : JsVal) :
  run w (callGroq env ToString_platform messages)
  = let r := run w
       (bind (lift (network w groq_url (groq_request env messages)))
          (fun res =>
             if negb (ok res) then
               bind (lift (text res)) (fun txt =>
                 Throw (Error_ (lit "Groq error " ++ decimal (status res)
                                ++ lit ": " ++ txt)))
             else
               bind (lift (json res)) (fun data =>
               bind (lift (get data "choices")) (fun choices =>
               bind (lift (get data "usage")) (fun usage =>
               bind (lift (get data "usage")) (fun usage' =>
                 Ret {| content :=
                          or_else (get_opt (get_opt (get0_opt choices)
                                              "message") "content")
                                  (JStr []);
                        promptTokens :=
                          or_else (get_opt usage "prompt_tokens") (JNum 0);
                        completionTokens :=
                          or_else (get_opt usage' "completion_tokens")
                                  (JNum 0) |})))))) in
    (EvFetch groq_url (groq_request env messages) :: r.1, r.2).
Proof.
  unfold callGroq. rewrite ToString_GROQ_API_KEY. reflexivity.
Qed.

Lemma run_callGroq_not_ok (messages : JsVal) (res : Response)
  (txt : jsstring) :
  network w groq_url (groq_request env messages) = inr res ->
  ok res = false ->
  text res = inr txt ->
  run w (callGroq env ToString_platform messages)
  = ([EvFetch groq_url (groq_request env messages)],
     inl (Error_ (lit "Groq error " ++ decimal (status res)
                  ++ lit ": " ++ txt))).
Proof.
  intros Hnet Hok Htxt. rewrite run_callGroq, Hnet. cbn [lift bind].
  rewrite Hok. cbn [negb]. rewrite Htxt. reflexivity.
Qed.

End LlmClient.

(** ** The summarize handler *)

Lemma not_2xx_ok (res : Response) :
  ~ (200 <= status res <= 299)%Z -> ok res = false.
Proof.
  intros H. unfold ok.
  destruct (Z.leb_spec 200 (status res)); [|reflexivity].
  destruct (Z.leb_spec (status res) 299); [|reflexivity].
  lia.
Qed.

Lemma unlit_lit (s : string) : unlit (lit s) = s.
Proof.
  unfold unlit, lit. rewrite List.map_map.
  rewrite (List.map_ext _ (fun a => a)) by (intros a; apply ascii_N_embedding).
  rewrite List.map_id. apply string_of_list_ascii_of_string.
Qed.

(** The digits [decimal] writes read back as the integer they were
    written for. *)
Lemma read_decimal_decimal (z : Z) : read_decimal (decimal z) = Some z.
Proof.
  unfold read_decimal, decimal. rewrite unlit_lit.
  rewrite NilZero.isi.
  - cbn [option_map]. f_equal. apply DecimalZ.of_to.
  - destruct z as [|p|p]; cbn; try discriminate.
    intros [= H]. revert H. apply DecimalPos.Unsigned.to_uint_nonnil.
  - destruct z as [|p|p]; cbn; try discriminate.
    intros [= H]. revert H. apply DecimalPos.Unsigned.to_uint_nonnil.
Qed.

Lemma is_2xx_ok (res : Response) :
  (200 <= status res <= 299)%Z -> ok res = true.
Proof.
  intros [H1 H2]. unfold ok.
  apply Z.leb_le in H1, H2. rewrite H1, H2. reflexivity.
Qed.

Section Summarize.

Variable env : ProcessEnv.
Variable ToString_platform : JsVal -> Thrown + jsstring.
Variable w : World.

(** Past validation, the handler's answer follows the outcome of the one
    call to the LLM client. *)
Lemma run_summarize_valid (req_body : JsVal) (t : jsstring)
  (messages : JsVal) :
  own req_body (lit "transcript") = Some (JStr t) ->
  forallb is_ws t = false ->
  messages_of ToString_platform (JStr t)
    (default JUndefined (own req_body (lit "prompt"))) = inr messages ->
  run w (post_api_summarize env ToString_platform req_body)
  = match (run w (callGroq env ToString_platform messages)).2 with
    | inr r =>
        ((run w (callGroq env ToString_platform messages)).1,
         inr {| statusCode := 200;
                payload :=
                  obj [ ("summary", content r);
                        ("model", GROQ_MODEL env);
                        ("tokens", obj [ ("prompt", promptTokens r);
                                         ("completion", completionTokens r) ]) ] |})
    | inl e =>
        ((run w (callGroq env ToString_platform messages)).1
         ++ [EvConsole console_error [LErr e]],
         inr {| statusCode := 500;
                payload := obj [ ("error", JStr (lit "Failed to summarize")) ] |})
    end.
Proof.
  intros Ht Hnb Hm. unfold post_api_summarize.
  rewrite run_try_catch, !get_body, Ht. cbn [lift bind default from_option id].
  rewrite missing_or_blank_string, Hnb. cbn [bind]. rewrite Hm. cbn [lift bind].
  rewrite run_bind.
  destruct (run w (callGroq env ToString_platform messages)) as [evs [e|r]];
    cbn [fst snd]; [reflexivity|].
  unfold res_json, res_status_json. cbn [run fst snd].
  rewrite app_nil_r. reflexivity.
Qed.

(** C1: a request to POST /api/summarize whose transcript is absent, empty
    or made of white space only is answered 400 with an [error] field, and
    the run makes no outbound call: its trace is empty. *)
Theorem summarize_blank_400 (req_body : JsVal) :
  (own req_body (lit "transcript") = None
   \/ exists s, own req_body (lit "transcript") = Some (JStr s)
                /\ forallb is_ws s = true) ->
  exists resp,
    run w (post_api_summarize env ToString_platform req_body) = ([], inr resp)
    /\ statusCode resp = 400%Z
    /\ is_Some (own (payload resp) (lit "error")).
Proof.
  intros H.
  exists {| statusCode := 400;
            payload := obj [("error", JStr (lit "Transcript is required"))] |}.
  split; [|split; [reflexivity|eexists; reflexivity]].
  unfold post_api_summarize. rewrite !get_body.
  destruct H as [H | (s & H & Hs)]; rewrite H;
    cbn [lift bind default from_option id].
  - reflexivity.
  - rewrite missing_or_blank_string, Hs. reflexivity.
Qed.

(** C2: for a request with a non-blank transcript, when the LLM client
    returns content [X] with usage counts [p] and [c], the handler answers
    200 with exactly [{summary: X, model: GROQ_MODEL, tokens: {prompt: p,
    completion: c}}]. *)
Theorem summarize_success_200 (req_body : JsVal) (t : jsstring)
  (messages : JsVal) (evs : list Event) (X p c : JsVal) :
  own req_body (lit "transcript") = Some (JStr t) ->
  forallb is_ws t = false ->
  messages_of ToString_platform (JStr t)
    (default JUndefined (own req_body (lit "prompt"))) = inr messages ->
  run w (callGroq env ToString_platform messages)
  = (evs, inr {| content := X; promptTokens := p; completionTokens := c |}) ->
  run w (post_api_summarize env ToString_platform req_body)
  = (evs,
     inr {| statusCode := 200;
            payload :=
              obj [ ("summary", X);
                    ("model", GROQ_MODEL env);
                    ("tokens", obj [ ("prompt", p); ("completion", c) ]) ] |}).
Proof.
  intros Ht Hnb Hm Hcall.
  rewrite (run_summarize_valid req_body t messages Ht Hnb Hm), Hcall.
  reflexivity.
Qed.

(** C3: on an upstream response outside 200-299 the LLM client throws an
    [Error] whose message carries the status and the raw body text: it is
    "Groq error ", then the decimal numeral of the status (its digits read
    back as the status), then ": " and the body text as received; the
    handler logs it and answers 500 with the fixed body
    [{error: "Failed to summarize"}], in which the upstream text has no
    part. *)
Theorem summarize_upstream_failure_500 (req_body : JsVal) (t : jsstring)
  (messages : JsVal) (res : Response) (txt : jsstring) :
  own req_body (lit "transcript") = Some (JStr t) ->
  forallb is_ws t = false ->
  messages_of ToString_platform (JStr t)
    (default JUndefined (own req_body (lit "prompt"))) = inr messages ->
  network w groq_url (groq_request env messages) = inr res ->
  ~ (200 <= status res <= 299)%Z ->
  text res = inr txt ->
  read_decimal (decimal (status res)) = Some (status res)
  /\ (run w (callGroq env ToString_platform messages)).2
     = inl (Error_ (lit "Groq error " ++ decimal (status res)
                    ++ lit ": " ++ txt))
  /\ run w (post_api_summarize env ToString_platform req_body)
     = ([ EvFetch groq_url (groq_request env messages);
          EvConsole console_error
            [LErr (Error_ (lit "Groq error " ++ decimal (status res)
                           ++ lit ": " ++ txt))] ],
        inr {| statusCode := 500;
               payload := obj [ ("error", JStr (lit "Failed to summarize")) ] |}).
Proof.
  intros Ht Hnb Hm Hnet Hst Htxt.
  pose proof (run_callGroq_not_ok env ToString_platform w messages res txt
                Hnet (not_2xx_ok res Hst) Htxt) as Hcall.
  split; [apply read_decimal_decimal|]. split.
  - rewrite Hcall. reflexivity.
  - rewrite (run_summarize_valid req_body t messages Ht Hnb Hm), Hcall.
    reflexivity.
Qed.

(** C10: when the transcript is truthy but not a string, calling [trim]
    on it throws; the handler catches the TypeError, logs it and answers
    500 [{error: "Failed to summarize"}] without any outbound call. *)
Theorem summarize_non_string_500 (req_body v : JsVal) :
  own req_body (lit "transcript") = Some v ->
  ToBoolean v = true ->
  (forall s, v <> JStr s) ->
  run w (post_api_summarize env ToString_platform req_body)
  = ([ EvConsole console_error [LErr TypeError] ],
     inr {| statusCode := 500;
            payload := obj [ ("error", JStr (lit "Failed to summarize")) ] |}).
Proof.
  intros Hv Ht Hs. unfold post_api_summarize.
  rewrite !get_body, Hv. cbn [lift bind default from_option id].
  rewrite (missing_or_blank_not_string v Ht Hs). reflexivity.
Qed.

End Summarize.

(** ** What the LLM client returns, and the prompt it is given *)

Section Prompt.

Variable env : ProcessEnv.
Variable ToString_platform : JsVal -> Thrown + jsstring.
Variable w : World.

(** C4 (amended): on a 2xx response whose body parses to a value other
    than [null], the LLM client returns, after its one request, the first
    choice's message content when it is there and truthy and the empty
    string otherwise, and each usage count when it is there and truthy and
    0 otherwise. *)
Theorem callGroq_2xx_result (messages : JsVal) (res : Response)
  (data : JsVal) :
  network w groq_url (groq_request env messages) = inr res ->
  (200 <= status res <= 299)%Z ->
  json res = inr data ->
  nullish data = false ->
  run w (callGroq env ToString_platform messages)
  = ([EvFetch groq_url (groq_request env messages)],
     inr {| content :=
              found_or (at_path data [Key "choices"; First; Key "message";
                                      Key "content"]) (JStr []);
            promptTokens :=
              found_or (at_path data [Key "usage"; Key "prompt_tokens"])
                       (JNum 0);
            completionTokens :=
              found_or (at_path data [Key "usage"; Key "completion_tokens"])
                       (JNum 0) |}).
Proof.
  intros Hnet Hst Hjson Hdata.
  pose proof (is_2xx_ok res Hst) as Hok.
  rewrite run_callGroq, Hnet. cbn [lift bind].
  rewrite Hok. cbn [negb]. rewrite Hjson. cbn [lift bind].
  rewrite !(get_own data) by exact Hdata. cbn [lift bind run fst snd].
  rewrite !get_opt_own, get0_opt_own, !or_else_default.
  cbn [at_path].
  do 2 f_equal. f_equal.
  - destruct (own data (lit "choices")) as [c|]; [|reflexivity].
    cbn [default from_option id]. destruct (own0 c) as [c0|]; [|reflexivity].
    cbn [default from_option id].
    destruct (own c0 (lit "message")) as [m|]; [|reflexivity].
    cbn [default from_option id].
    destruct (own m (lit "content")); reflexivity.
  - destruct (own data (lit "usage")) as [u|]; [|reflexivity].
    cbn [default from_option id].
    destruct (own u (lit "prompt_tokens")); reflexivity.
  - destruct (own data (lit "usage")) as [u|]; [|reflexivity].
    cbn [default from_option id].
    destruct (own u (lit "completion_tokens")); reflexivity.
Qed.

(** C5: for a transcript and an optional extra instruction, the message
    list is the fixed system message followed by one user message, whose
    content is the transcript between its two fixed headings followed by
    the extra text as given, or by nothing when the extra is absent or
    empty. *)
Theorem messages_of_transcript (t : jsstring) (extra : option jsstring) :
  buildUserPrompt ToString_platform (JStr t) (optional extra)
  = inr (lit "Transcript:" ++ [LF] ++ t ++ [LF; LF]
         ++ lit "Additional instruction from user:" ++ [LF]
         ++ default [] extra)
  /\ messages_of ToString_platform (JStr t) (optional extra)
     = inr (JArr [ obj [ ("role", JStr (lit "system"));
                         ("content",
                          JStr (lit "You are a precise meeting notes summarizer.")) ];
                   obj [ ("role", JStr (lit "user"));
                         ("content",
                          JStr (lit "Transcript:" ++ [LF] ++ t ++ [LF; LF]
                                ++ lit "Additional instruction from user:"
                                ++ [LF] ++ default [] extra)) ] ]).
Proof.
  assert (H : buildUserPrompt ToString_platform (JStr t) (optional extra)
              = inr (lit "Transcript:" ++ [LF] ++ t ++ [LF; LF]
                     ++ lit "Additional instruction from user:" ++ [LF]
                     ++ default [] extra)).
  { destruct extra as [[|c r]|]; reflexivity. }
  split; [exact H|]. unfold messages_of. rewrite H. reflexivity.
Qed.

End Prompt.

(** C4, as first stated, fails: a 200 response whose body is the JSON
    value [null] makes the client throw at [data.choices] instead of
    returning a result. *)
Lemma callGroq_null_body_throws :
  run (world_of (inr (response_of 200 (lit "null") (inr JNull)))
                (inl TypeError))
      (callGroq sample_env sample_ToString (JArr []))
  = ([EvFetch groq_url (groq_request sample_env (JArr []))], inl TypeError).
Proof. vm_compute. reflexivity. Qed.

(** ** The send-email handler *)

Section SendEmail.

Variable env : ProcessEnv.
Variable ToString_platform : JsVal -> Thrown + jsstring.
Variable w : World.

(** C6: a request to POST /api/send-email whose email field is missing, or
    whose summary is missing, empty or made of white space only, is
    answered 400 with an [error] field; the run only logs the body and
    never reaches the mail provider. *)
Theorem send_email_invalid_400 (req_body : JsVal) :
  (own req_body (lit "email") = None
   \/ own req_body (lit "summary") = None
   \/ exists s, own req_body (lit "summary") = Some (JStr s)
                /\ forallb is_ws s = true) ->
  exists resp,
    run w (post_api_send_email env ToString_platform req_body)
    = ([incoming req_body], inr resp)
    /\ statusCode resp = 400%Z
    /\ is_Some (own (payload resp) (lit "error")).
Proof.
  intros H.
  assert (Hbad : missing_or_blank
                   (default JUndefined (own req_body (lit "summary")))
                 = Ret true
                 \/ ToBoolean (default JUndefined (own req_body (lit "email")))
                    = false).
  { destruct H as [H | [H | (s & H & Hs)]].
    - right. rewrite H. reflexivity.
    - left. rewrite H. reflexivity.
    - left. rewrite H. cbn [default from_option id].
      rewrite missing_or_blank_string, Hs. reflexivity. }
  clear H. unfold post_api_send_email.
  rewrite run_try_catch. cbn [console bind]. rewrite !get_body.
  cbn [lift bind].
  destruct (ToBoolean (default JUndefined (own req_body (lit "email"))))
    eqn:He.
  - destruct Hbad as [Hbad | Hbad]; [|discriminate Hbad].
    cbn [negb]. rewrite Hbad. cbn [bind].
    eexists. split; [reflexivity|]. split; [reflexivity|].
    eexists. reflexivity.
  - cbn [negb].
    eexists. split; [reflexivity|]. split; [reflexivity|].
    eexists. reflexivity.
Qed.

(** Past validation, what the handler does depends on [resend] only. *)
Lemma send_email_validated (req_body e : JsVal) (s : jsstring) :
  own req_body (lit "email") = Some e ->
  ToBoolean e = true ->
  own req_body (lit "summary") = Some (JStr s) ->
  forallb is_ws s = false ->
  post_api_send_email env ToString_platform req_body
  = try_catch
      (Write_console console_log
         [LVal (JStr (lit "Incoming request body:")); LVal req_body]
         match resend env with
         | Some client =>
             Write_console console_log
               [LVal (JStr (check_mark :: lit " Sending email via Resend..."))]
               (Await_send client (mail env e s)
                  (fun r =>
                     bind (lift r) (fun out =>
                     Write_console console_log
                       [LVal (JStr (lit "Resend response:")); LVal out]
                       (bind (lift (get out "error")) (fun err =>
                          if ToBoolean err then Throw (Value err)
                          else
                            bind (lift (get out "data")) (fun data =>
                              res_json
                                (obj [ ("ok", JBool true);
                                       ("id", or_else (get_opt data "id")
                                                (JStr (lit "sent"))) ])))))))
         | None =>
             res_status_json 500
               (obj [ ("error", JStr (lit "Email service not configured")) ])
         end)
      (fun err =>
         bind (console console_error
                 [LVal (JStr (cross_mark :: lit " Failed to send email:"));
                  LErr err])
           (fun _ =>
              res_status_json 500
                (obj [ ("error", JStr (lit "Failed to send email")) ]))).
Proof.
  intros He Het Hs Hnb. unfold post_api_send_email.
  rewrite !get_body, He, Hs. cbn [lift bind console default from_option id].
  rewrite Het. cbn [negb]. rewrite missing_or_blank_string, Hnb.
  cbn [bind]. destruct (resend env); reflexivity.
Qed.

(** C7: when the mail provider's key was never configured, a validated
    request is answered 500 with the message "Email service not
    configured", which is not the generic failure message, and the run
    never reaches the mail provider. *)
Theorem send_email_not_configured_500 (req_body e : JsVal) (s : jsstring) :
  (env_RESEND_API_KEY env = None \/ env_RESEND_API_KEY env = Some []) ->
  own req_body (lit "email") = Some e ->
  ToBoolean e = true ->
  own req_body (lit "summary") = Some (JStr s) ->
  forallb is_ws s = false ->
  run w (post_api_send_email env ToString_platform req_body)
  = ([incoming req_body],
     inr {| statusCode := 500;
            payload := obj [ ("error",
                              JStr (lit "Email service not configured")) ] |})
  /\ lit "Email service not configured" <> lit "Failed to send email".
Proof.
  intros Hkey He Het Hs Hnb. split; [|discriminate].
  rewrite (send_email_validated req_body e s He Het Hs Hnb).
  assert (Hr : resend env = None).
  { unfold resend, RESEND_API_KEY. destruct Hkey as [-> | ->]; reflexivity. }
  rewrite Hr. reflexivity.
Qed.

(** C8 (amended): when the provider settles the send with an object that
    reports no error, the handler answers 200 with [{ok: true, id: I}],
    where [I] is the provider's [data.id] when it is there and truthy, and
    "sent" otherwise. *)
Theorem send_email_success_200 (req_body e : JsVal) (s key : jsstring)
  (out : JsVal) :
  env_RESEND_API_KEY env = Some key ->
  key <> [] ->
  own req_body (lit "email") = Some e ->
  ToBoolean e = true ->
  own req_body (lit "summary") = Some (JStr s) ->
  forallb is_ws s = false ->
  provider w {| apiKey := JStr key |} (mail env e s) = inr out ->
  nullish out = false ->
  ToBoolean (default JUndefined (own out (lit "error"))) = false ->
  run w (post_api_send_email env ToString_platform req_body)
  = ([ incoming req_body;
       EvConsole console_log
         [LVal (JStr (check_mark :: lit " Sending email via Resend..."))];
       EvSend {| apiKey := JStr key |} (mail env e s);
       EvConsole console_log
         [LVal (JStr (lit "Resend response:")); LVal out] ],
     inr {| statusCode := 200;
            payload :=
              obj [ ("ok", JBool true);
                    ("id", found_or (at_path out [Key "data"; Key "id"])
                             (JStr (lit "sent"))) ] |}).
Proof.
  intros Hkey Hne He Het Hs Hnb Hout Hobj Hf.
  rewrite (send_email_validated req_body e s He Het Hs Hnb).
  assert (Hr : resend env = Some {| apiKey := JStr key |}).
  { unfold resend, RESEND_API_KEY. rewrite Hkey.
    destruct key; [congruence|reflexivity]. }
  rewrite Hr. cbn [try_catch run fst snd]. rewrite Hout.
  cbn [lift bind try_catch run fst snd].
  rewrite !(get_own out) by exact Hobj.
  cbn [lift bind try_catch run fst snd].
  rewrite Hf. cbn [lift bind try_catch run fst snd res_json res_status_json].
  rewrite get_opt_own, or_else_default. cbn [at_path].
  do 5 f_equal.
  destruct (own out (lit "data")) as [d|]; [|reflexivity].
  cbn [default from_option id]. destruct (own d (lit "id")); reflexivity.
Qed.

End SendEmail.

(** C8, as first stated, fails: an id that is there but falsy (here the
    empty string) is replaced by "sent". *)
Lemma send_email_empty_id_sent :
  run (world_of (inl TypeError)
         (inr (obj [ ("data", obj [ ("id", JStr []) ]); ("error", JNull) ])))
      (post_api_send_email sample_env sample_ToString
         (obj [ ("email", JStr (lit "a@b.com"));
                ("summary", JStr (lit "Notes")) ]))
  = ([ incoming (obj [ ("email", JStr (lit "a@b.com"));
                       ("summary", JStr (lit "Notes")) ]);
       EvConsole console_log
         [LVal (JStr (check_mark :: lit " Sending email via Resend..."))];
       EvSend {| apiKey := JStr (lit "re_sample") |}
         (mail sample_env (JStr (lit "a@b.com")) (lit "Notes"));
       EvConsole console_log
         [LVal (JStr (lit "Resend response:"));
          LVal (obj [ ("data", obj [ ("id", JStr []) ]); ("error", JNull) ])] ],
     inr {| statusCode := 200;
            payload := obj [ ("ok", JBool true);
                             ("id", JStr (lit "sent")) ] |}).
Proof. vm_compute. reflexivity. Qed.

(** ** The rate limiter *)

Section RateLimit.

Variable env : ProcessEnv.
Variable ToString_platform : JsVal -> Thrown + jsstring.




End RateLimit.

(** * The properties at the spec's test inputs *)

(** [{transcript: "   "}] is answered 400. *)
Lemma summarize_blank_400_witness :
  exists resp,
    run offline
      (post_api_summarize sample_env sample_ToString
         (obj [ ("transcript", JStr (lit "   ")) ]))
    = ([], inr resp)
    /\ statusCode resp = 400%Z
    /\ is_Some (own (payload resp) (lit "error")).
Proof.
  apply summarize_blank_400. right. exists (lit "   ").
  split; reflexivity.
Defined.

(** A stubbed completion "X" with usage 10/5 is answered 200 with it. *)
Lemma summarize_success_200_witness :
  run (world_of (inr (response_of 200 [] (inr sample_completion)))
                (inl TypeError))
      (post_api_summarize sample_env sample_ToString sample_summarize_body)
  = ([EvFetch groq_url (groq_request sample_env sample_messages)],
     inr {| statusCode := 200;
            payload :=
              obj [ ("summary", JStr (lit "X"));
                    ("model", GROQ_MODEL sample_env);
                    ("tokens", obj [ ("prompt", JNum 10);
                                     ("completion", JNum 5) ]) ] |}).
Proof.
  apply (summarize_success_200 sample_env sample_ToString _
           sample_summarize_body (lit "Standup notes") sample_messages).
  - reflexivity.
  - reflexivity.
  - reflexivity.
  - vm_compute. reflexivity.
Defined.

(** A simulated 503 with body "overloaded": the client's error reads
    "Groq error 503: overloaded", and the answer is the generic 500. *)
Lemma summarize_upstream_failure_500_witness :
  read_decimal (lit "503") = Some 503%Z
  /\ (run (world_of (inr (response_of 503 (lit "overloaded") (inl TypeError)))
                    (inl TypeError))
          (callGroq sample_env sample_ToString sample_messages)).2
     = inl (Error_ (lit "Groq error 503: overloaded"))
  /\ run (world_of (inr (response_of 503 (lit "overloaded") (inl TypeError)))
                   (inl TypeError))
         (post_api_summarize sample_env sample_ToString sample_summarize_body)
     = ([ EvFetch groq_url (groq_request sample_env sample_messages);
          EvConsole console_error
            [LErr (Error_ (lit "Groq error 503: overloaded"))] ],
        inr {| statusCode := 500;
               payload := obj [ ("error", JStr (lit "Failed to summarize")) ] |}).
Proof.
  apply (summarize_upstream_failure_500 sample_env sample_ToString _
           sample_summarize_body (lit "Standup notes") sample_messages
           (response_of 503 (lit "overloaded") (inl TypeError))
           (lit "overloaded")).
  - reflexivity.
  - reflexivity.
  - reflexivity.
  - reflexivity.
  - simpl. lia.
  - reflexivity.
Defined.

(** [{transcript: 42}] is answered 500. *)
Lemma summarize_non_string_500_witness :
  run offline
    (post_api_summarize sample_env sample_ToString
       (obj [ ("transcript", JNum 42) ]))
  = ([ EvConsole console_error [LErr TypeError] ],
     inr {| statusCode := 500;
            payload := obj [ ("error", JStr (lit "Failed to summarize")) ] |}).
Proof.
  apply (summarize_non_string_500 sample_env sample_ToString offline
           (obj [ ("transcript", JNum 42) ]) (JNum 42)).
  - reflexivity.
  - reflexivity.
  - intros s H. discriminate H.
Defined.

(** The client reads content "X" and usage 10/5 out of the completion. *)
Lemma callGroq_2xx_result_witness :
  run (world_of (inr (response_of 200 [] (inr sample_completion)))
                (inl TypeError))
      (callGroq sample_env sample_ToString sample_messages)
  = ([EvFetch groq_url (groq_request sample_env sample_messages)],
     inr {| content := JStr (lit "X");
            promptTokens := JNum 10;
            completionTokens := JNum 5 |}).
Proof.
  apply (callGroq_2xx_result sample_env sample_ToString _ sample_messages
           (response_of 200 [] (inr sample_completion)) sample_completion).
  - reflexivity.
  - simpl. lia.
  - reflexivity.
  - reflexivity.
Defined.

(** [{email: "a@b.com", summary: ""}] is answered 400. *)
Lemma send_email_invalid_400_witness :
  exists resp,
    run offline
      (post_api_send_email sample_env sample_ToString
         (obj [ ("email", JStr (lit "a@b.com")); ("summary", JStr []) ]))
    = ([incoming (obj [ ("email", JStr (lit "a@b.com"));
                        ("summary", JStr []) ])],
       inr resp)
    /\ statusCode resp = 400%Z
    /\ is_Some (own (payload resp) (lit "error")).
Proof.
  apply send_email_invalid_400. right. right. exists [].
  split; reflexivity.
Defined.

(** Without the provider's key a valid request is answered 500. *)
Lemma send_email_not_configured_500_witness :
  run offline
    (post_api_send_email sample_env_no_mail sample_ToString sample_email_body)
  = ([incoming sample_email_body],
     inr {| statusCode := 500;
            payload := obj [ ("error",
                              JStr (lit "Email service not configured")) ] |})
  /\ lit "Email service not configured" <> lit "Failed to send email".
Proof.
  apply (send_email_not_configured_500 sample_env_no_mail sample_ToString
           offline sample_email_body (JStr (lit "a@b.com")) (lit "Notes")).
  - left. reflexivity.
  - reflexivity.
  - reflexivity.
  - reflexivity.
  - reflexivity.
Defined.

(** A provider answering [{data: {id: "msg_1"}}] gives
    [{ok: true, id: "msg_1"}]. *)
Lemma send_email_success_200_witness :
  run (world_of (inl TypeError) (inr sample_sent))
    (post_api_send_email sample_env sample_ToString sample_email_body)
  = ([ incoming sample_email_body;
       EvConsole console_log
         [LVal (JStr (check_mark :: lit " Sending email via Resend..."))];
       EvSend {| apiKey := JStr (lit "re_sample") |}
         (mail sample_env (JStr (lit "a@b.com")) (lit "Notes"));
       EvConsole console_log
         [LVal (JStr (lit "Resend response:")); LVal sample_sent] ],
     inr {| statusCode := 200;
            payload := obj [ ("ok", JBool true);
                             ("id", JStr (lit "msg_1")) ] |}).
Proof.
  apply (send_email_success_200 sample_env sample_ToString
           (world_of (inl TypeError) (inr sample_sent))
           sample_email_body (JStr (lit "a@b.com")) (lit "Notes")
           (lit "re_sample") sample_sent).
  - reflexivity.
  - discriminate.
  - reflexivity.
  - reflexivity.
  - reflexivity.
  - reflexivity.
  - reflexivity.
  - reflexivity.
  - reflexivity.
Defined.


(** ** Further runs *)

Example decimal_503 : decimal 503 = lit "503".
Proof. reflexivity. Qed.

Example decimal_404 : decimal 404 = lit "404".
Proof. reflexivity. Qed.

Example decimal_429 : decimal 429 = lit "429".
Proof. reflexivity. Qed.

Example trim_both_ends :
  trim (LF :: lit "  Standup notes " ++ [160%N]) = lit "Standup notes".
Proof. reflexivity. Qed.

Example trim_inner_space_kept : trim (lit " a  b ") = lit "a  b".
Proof. reflexivity. Qed.

(** A provider answer without an id gives [{ok: true, id: "sent"}]. *)
Example send_email_no_id_sent :
  (run (world_of (inl TypeError)
          (inr (obj [ ("data", obj []); ("error", JNull) ])))
       (post_api_send_email sample_env sample_ToString sample_email_body)).2
  = inr {| statusCode := 200;
           payload := obj [ ("ok", JBool true); ("id", JStr (lit "sent")) ] |}.
Proof. vm_compute. reflexivity. Qed.

(** An error reported by the provider is answered with the generic 500. *)
Example send_email_provider_error_500 :
  (run (world_of (inl TypeError)
          (inr (obj [ ("data", JNull);
                      ("error", obj [ ("message", JStr (lit "bad key")) ]) ])))
       (post_api_send_email sample_env sample_ToString sample_email_body)).2
  = inr {| statusCode := 500;
           payload := obj [ ("error", JStr (lit "Failed to send email")) ] |}.
Proof. vm_compute. reflexivity. Qed.

(** A network failure of the LLM call is answered with the generic 500. *)
Example summarize_offline_500 :
  (run offline
     (post_api_summarize sample_env sample_ToString sample_summarize_body)).2
  = inr {| statusCode := 500;
           payload := obj [ ("error", JStr (lit "Failed to summarize")) ] |}.
Proof. vm_compute. reflexivity. Qed.

(** 21 requests of one client within a minute, each with an empty
    transcript: 20 reach the handler, which answers 400, and the last is
    turned away with 429. *)
Example twenty_one_requests :
  statuses offline
    (serve sample_env sample_ToString ∅
       (map sample_request (map Z.of_nat (seq 0 21))))
  = replicate 20 (Some 400%Z) ++ [Some 429%Z].
Proof. vm_compute. reflexivity. Qed.

(** A minute after its first request the client's window has ended, and
    the next request is let through again. *)
Example window_resets :
  statuses offline
    (serve sample_env sample_ToString ∅
       (map sample_request (map Z.of_nat (seq 0 21)) ++ [sample_request 60000]))
  = replicate 20 (Some 400%Z) ++ [Some 429%Z; Some 400%Z].
Proof. vm_compute. reflexivity. Qed.

(** * Further properties of the code *)

(** ** The LLM client, whatever the network answers *)

Lemma ok_2xx (res : Response) :
  ok res = true -> (200 <= status res <= 299)%Z.
Proof.
  unfold ok. intros H. apply andb_true_iff in H as [H1 H2].
  apply Z.leb_le in H1, H2. lia.
Qed.

Lemma found_or_defined (found : option JsVal) (d : JsVal) :
  ToBoolean (found_or found d) = true \/ found_or found d = d.
Proof.
  destruct found as [v|]; cbn [found_or]; [|right; reflexivity].
  destruct (ToBoolean v) eqn:E; [left; exact E|right; reflexivity].
Qed.

Section LlmClientAlways.

Variable env : ProcessEnv.
Variable ToString_platform : JsVal -> Thrown + jsstring.
Variable w : World.

(** The whole of [callGroq]: one request, then an outcome fixed by the
    answer. *)
Lemma run_callGroq_full (messages : JsVal) :
  run w (callGroq env ToString_platform messages)
  = ([EvFetch groq_url (groq_request env messages)],
     match network w groq_url (groq_request env messages) with
     | inl e => inl e
     | inr res =>
         if ok res then
           match json res with
           | inl e => inl e
           | inr data =>
               if nullish data then inl TypeError
               else
                 inr {| content :=
                          found_or (at_path data [Key "choices"; First;
                                                  Key "message"; Key "content"])
                                   (JStr []);
                        promptTokens :=
                          found_or (at_path data [Key "usage";
                                                  Key "prompt_tokens"])
                                   (JNum 0);
                        completionTokens :=
                          found_or (at_path data [Key "usage";
                                                  Key "completion_tokens"])
                                   (JNum 0) |}
           end
         else
           match text res with
           | inl e => inl e
           | inr txt =>
               inl (Error_ (lit "Groq error " ++ decimal (status res)
                            ++ lit ": " ++ txt))
           end
     end).
Proof.
  rewrite run_callGroq.
  destruct (network w groq_url (groq_request env messages)) as [e|res];
    [reflexivity|].
  cbn [lift bind]. destruct (ok res); cbn [negb].
  - destruct (json res) as [e|data]; [reflexivity|]. cbn [lift bind].
    destruct (nullish data) eqn:Hn.
    + unfold get. rewrite Hn. reflexivity.
    + rewrite !(get_own data) by exact Hn. cbn [lift bind run fst snd].
      rewrite !get_opt_own, get0_opt_own, !or_else_default. cbn [at_path].
      do 2 f_equal. f_equal.
      * destruct (own data (lit "choices")) as [c|]; [|reflexivity].
        cbn [default from_option id].
        destruct (own0 c) as [c0|]; [|reflexivity].
        cbn [default from_option id].
        destruct (own c0 (lit "message")) as [m|]; [|reflexivity].
        cbn [default from_option id].
        destruct (own m (lit "content")); reflexivity.
      * destruct (own data (lit "usage")) as [u|]; [|reflexivity].
        cbn [default from_option id].
        destruct (own u (lit "prompt_tokens")); reflexivity.
      * destruct (own data (lit "usage")) as [u|]; [|reflexivity].
        cbn [default from_option id].
        destruct (own u (lit "completion_tokens")); reflexivity.
  - destruct (text res) as [e|txt]; reflexivity.
Qed.

(** X1: whatever the network answers, a call of the LLM client leaves
    exactly one outbound request behind, a POST to the completion
    endpoint whose body carries the message list as given and the
    configured model: there is no retry and no second call. *)
Theorem callGroq_one_request (messages : JsVal) :
  (run w (callGroq env ToString_platform messages)).1
  = [EvFetch groq_url (groq_request env messages)]
  /\ method (groq_request env messages) = lit "POST"
  /\ own (body (groq_request env messages)) (lit "messages") = Some messages
  /\ own (body (groq_request env messages)) (lit "model")
     = Some (GROQ_MODEL env).
Proof.
  rewrite run_callGroq_full. repeat split.
Qed.

(** X2: the LLM client returns a result exactly when the network answers
    with a status in 200-299 whose body parses to a value other than
    [null] and [undefined]; in every other case it throws. *)
Theorem callGroq_returns_iff (messages : JsVal) :
  (exists r, (run w (callGroq env ToString_platform messages)).2 = inr r)
  <-> exists res data,
        network w groq_url (groq_request env messages) = inr res
        /\ (200 <= status res <= 299)%Z
        /\ json res = inr data
        /\ nullish data = false.
Proof.
  rewrite run_callGroq_full. cbn [snd]. split.
  - intros [r H].
    destruct (network w groq_url (groq_request env messages)) as [e|res];
      [discriminate H|].
    destruct (ok res) eqn:Hok.
    + destruct (json res) as [e|data] eqn:Hj; [discriminate H|].
      destruct (nullish data) eqn:Hn; [discriminate H|].
      exists res, data. auto using ok_2xx.
    + destruct (text res); discriminate H.
  - intros (res & data & -> & Hst & Hj & Hn).
    rewrite (is_2xx_ok res Hst), Hj, Hn. eexists. reflexivity.
Qed.

(** X3: a result of the LLM client never holds [undefined] or [null]: its
    content is truthy or the empty string, and each count is truthy or
    0. *)
Theorem callGroq_result_defined (messages : JsVal) (r : GroqResult) :
  (run w (callGroq env ToString_platform messages)).2 = inr r ->
  (ToBoolean (content r) = true \/ content r = JStr [])
  /\ (ToBoolean (promptTokens r) = true \/ promptTokens r = JNum 0)
  /\ (ToBoolean (completionTokens r) = true \/ completionTokens r = JNum 0).
Proof.
  rewrite run_callGroq_full. cbn [snd]. intros H.
  destruct (network w groq_url (groq_request env messages)) as [e|res];
    [discriminate H|].
  destruct (ok res).
  - destruct (json res) as [e|data]; [discriminate H|].
    destruct (nullish data); [discriminate H|].
    injection H as <-. cbn [content promptTokens completionTokens].
    repeat split; apply found_or_defined.
  - destruct (text res); discriminate H.
Qed.

End LlmClientAlways.

(** ** The summarize handler, whatever the request and the network *)

Section SummarizeAlways.

Variable env : ProcessEnv.
Variable ToString_platform : JsVal -> Thrown + jsstring.
Variable w : World.

Lemma callGroq_trace (messages : JsVal) :
  (run w (callGroq env ToString_platform messages)).1
  = [EvFetch groq_url (groq_request env messages)].
Proof. rewrite run_callGroq_full. reflexivity. Qed.

(** The whole of the handler: its trace and its answer, by cases on the
    transcript, on the prompt and on the outcome of the LLM client. *)
Lemma run_summarize_full (req_body : JsVal) :
  run w (post_api_summarize env ToString_platform req_body)
  = if ToBoolean (default JUndefined (own req_body (lit "transcript"))) then
      match default JUndefined (own req_body (lit "transcript")) with
      | JStr s =>
          if forallb is_ws s then
            ([], inr (error_response 400 "Transcript is required"))
          else
            match messages_of ToString_platform (JStr s)
                    (default JUndefined (own req_body (lit "prompt"))) with
            | inl e =>
                ([EvConsole console_error [LErr e]],
                 inr (error_response 500 "Failed to summarize"))
            | inr m =>
                match (run w (callGroq env ToString_platform m)).2 with
                | inl e =>
                    ([EvFetch groq_url (groq_request env m);
                      EvConsole console_error [LErr e]],
                     inr (error_response 500 "Failed to summarize"))
                | inr r =>
                    ([EvFetch groq_url (groq_request env m)],
                     inr {| statusCode := 200;
                            payload :=
                              obj [ ("summary", content r);
                                    ("model", GROQ_MODEL env);
                                    ("tokens",
                                     obj [ ("prompt", promptTokens r);
                                           ("completion", completionTokens r) ]) ] |})
                end
            end
      | _ =>
          ([EvConsole console_error [LErr TypeError]],
           inr (error_response 500 "Failed to summarize"))
      end
    else ([], inr (error_response 400 "Transcript is required")).
Proof.
  destruct (own req_body (lit "transcript")) as [t|] eqn:Ht.
  2:{ unfold post_api_summarize. rewrite !get_body, Ht. reflexivity. }
  cbn [default from_option id].
  destruct (ToBoolean t) eqn:Hb.
  2:{ unfold post_api_summarize. rewrite !get_body, Ht.
      cbn [lift bind default from_option id].
      unfold missing_or_blank. rewrite Hb. reflexivity. }
  assert (Hnot : (forall s, t <> JStr s) ->
                 run w (post_api_summarize env ToString_platform req_body)
                 = ([EvConsole console_error [LErr TypeError]],
                    inr (error_response 500 "Failed to summarize"))).
  { intros Hs. unfold post_api_summarize. rewrite !get_body, Ht.
    cbn [lift bind default from_option id].
    rewrite (missing_or_blank_not_string t Hb Hs). reflexivity. }
  destruct t as [| |b|x|s|xs|props]; try (apply Hnot; discriminate).
  clear Hnot.
  destruct (forallb is_ws s) eqn:Hws.
  { unfold post_api_summarize. rewrite !get_body, Ht.
    cbn [lift bind default from_option id].
    rewrite missing_or_blank_string, Hws. reflexivity. }
  destruct (messages_of ToString_platform (JStr s)
              (default JUndefined (own req_body (lit "prompt"))))
    as [e|m] eqn:Hm.
  { unfold post_api_summarize. rewrite !get_body, Ht.
    cbn [lift bind default from_option id].
    rewrite missing_or_blank_string, Hws. cbn [bind]. rewrite Hm.
    reflexivity. }
  rewrite (run_summarize_valid env ToString_platform w req_body s m Ht Hws Hm).
  rewrite callGroq_trace.
  destruct (run w (callGroq env ToString_platform m)).2; reflexivity.
Qed.


(** X5: a run of the summarize handler makes at most one outbound request
    and never reaches the mail provider. *)
Theorem summarize_at_most_one_fetch (req_body : JsVal) :
  length (List.filter is_fetch
            (run w (post_api_summarize env ToString_platform req_body)).1) <= 1
  /\ List.filter is_send
       (run w (post_api_summarize env ToString_platform req_body)).1 = [].
Proof.
  rewrite run_summarize_full.
  destruct (ToBoolean _); [|split; [cbn; lia|reflexivity]].
  destruct (default JUndefined (own req_body (lit "transcript")))
    as [| |b|x|s|xs|props]; try (split; [cbn; lia|reflexivity]).
  destruct (forallb is_ws s); [split; [cbn; lia|reflexivity]|].
  destruct (messages_of _ _ _); [split; [cbn; lia|reflexivity]|].
  destruct (run w _).2; (split; [cbn; lia|reflexivity]).
Qed.


(** X7: the handler answers 500 exactly when it has written the cause to
    the error console: every failure is logged, and nothing else is. *)
Theorem summarize_500_iff_logged (req_body : JsVal) :
  (exists resp,
     (run w (post_api_summarize env ToString_platform req_body)).2 = inr resp
     /\ statusCode resp = 500%Z)
  <-> existsb is_error_log
        (run w (post_api_summarize env ToString_platform req_body)).1 = true.
Proof.
  rewrite run_summarize_full.
  assert (Hno : forall (o : Thrown + HttpResponse) resp,
            o = inr resp ->
            (statusCode resp = 400 \/ statusCode resp = 200)%Z ->
            (exists r, o = inr r /\ statusCode r = 500%Z) <-> false = true).
  { intros o resp -> Hst. split; [|discriminate].
    intros (r & [= <-] & H). lia. }
  assert (Hyes : forall (o : Thrown + HttpResponse) resp,
            o = inr resp -> statusCode resp = 500%Z ->
            (exists r, o = inr r /\ statusCode r = 500%Z) <-> true = true).
  { intros o resp -> Hst. split; [reflexivity|]. intros _. eauto. }
  destruct (ToBoolean _);
    [|cbn [fst snd existsb]; eapply Hno; [reflexivity|left; reflexivity]].
  destruct (default JUndefined (own req_body (lit "transcript")))
    as [| |b|x|s|xs|props];
    try (cbn [fst snd existsb is_error_log orb];
         eapply Hyes; reflexivity).
  destruct (forallb is_ws s);
    [cbn [fst snd existsb]; eapply Hno; [reflexivity|left; reflexivity]|].
  destruct (messages_of _ _ _);
    [cbn [fst snd existsb is_error_log orb]; eapply Hyes; reflexivity|].
  destruct (run w _).2.
  - cbn [fst snd existsb is_error_log orb]. eapply Hyes; reflexivity.
  - cbn [fst snd existsb is_error_log orb].
    eapply Hno; [reflexivity|right; reflexivity].
Qed.

End SummarizeAlways.

Section SummarizeFailures.

Variable env : ProcessEnv.
Variable ToString_platform : JsVal -> Thrown + jsstring.
Variable w : World.

(** X8: whatever makes the LLM client throw (a network failure, a body
    that is not JSON, a [null] body, a status outside 200-299), the
    handler logs the cause after the one request and answers 500 with
    the fixed body [{error: "Failed to summarize"}]. *)
Theorem summarize_client_failure_500 (req_body : JsVal) (s : jsstring)
  (m : JsVal) (e : Thrown) :
  own req_body (lit "transcript") = Some (JStr s) ->
  forallb is_ws s = false ->
  messages_of ToString_platform (JStr s)
    (default JUndefined (own req_body (lit "prompt"))) = inr m ->
  (run w (callGroq env ToString_platform m)).2 = inl e ->
  run w (post_api_summarize env ToString_platform req_body)
  = ([ EvFetch groq_url (groq_request env m);
       EvConsole console_error [LErr e] ],
     inr (error_response 500 "Failed to summarize")).
Proof.
  intros Ht Hws Hm He.
  rewrite (run_summarize_valid env ToString_platform w req_body s m Ht Hws Hm).
  rewrite He, callGroq_trace. reflexivity.
Qed.

(** X9: when the extra instruction is a truthy value that the template
    literal cannot convert to a string, the handler answers 500 and the
    network is never asked. *)
Theorem summarize_prompt_not_convertible_500 (req_body : JsVal)
  (s : jsstring) (p : JsVal) (e : Thrown) :
  own req_body (lit "transcript") = Some (JStr s) ->
  forallb is_ws s = false ->
  own req_body (lit "prompt") = Some p ->
  ToBoolean p = true ->
  ToString ToString_platform p = inl e ->
  run w (post_api_summarize env ToString_platform req_body)
  = ([ EvConsole console_error [LErr e] ],
     inr (error_response 500 "Failed to summarize")).
Proof.
  intros Ht Hws Hp Hb He. rewrite run_summarize_full, Ht, Hp.
  cbn [default from_option id ToBoolean].
  destruct s as [|c r]; [discriminate Hws|]. rewrite Hws.
  unfold messages_of, buildUserPrompt, or_else. rewrite Hb.
  cbn [ToString]. rewrite He. reflexivity.
Qed.

(** X10: an answer 200 comes only after the one request to the LLM
    endpoint, and reports as [model] the very model that request named,
    whatever the upstream body says; its [summary] is never [undefined]
    or [null]. *)
Theorem summarize_200_after_one_request (req_body : JsVal)
  (resp : HttpResponse) :
  (run w (post_api_summarize env ToString_platform req_body)).2 = inr resp ->
  statusCode resp = 200%Z ->
  exists m summary,
    (run w (post_api_summarize env ToString_platform req_body)).1
    = [EvFetch groq_url (groq_request env m)]
    /\ own (payload resp) (lit "model")
       = own (body (groq_request env m)) (lit "model")
    /\ own (payload resp) (lit "summary") = Some summary
    /\ (ToBoolean summary = true \/ summary = JStr []).
Proof.
  rewrite run_summarize_full.
  destruct (ToBoolean (default JUndefined (own req_body (lit "transcript"))));
    [|intros [= <-] Hst; discriminate Hst].
  destruct (default JUndefined (own req_body (lit "transcript")))
    as [| |b|x|s|xs|props];
    try (intros [= <-] Hst; discriminate Hst).
  destruct (forallb is_ws s); [intros [= <-] Hst; discriminate Hst|].
  destruct (messages_of _ _ _) as [e|m];
    [intros [= <-] Hst; discriminate Hst|].
  destruct (run w (callGroq env ToString_platform m)).2 as [e|r] eqn:Hr;
    [intros [= <-] Hst; discriminate Hst|].
  intros [= <-] _. exists m, (content r).
  split; [reflexivity|]. split; [reflexivity|]. split; [reflexivity|].
  rewrite run_callGroq_full in Hr. cbn [snd] in Hr.
  destruct (network w groq_url (groq_request env m)) as [e|res];
    [discriminate Hr|].
  destruct (ok res).
  - destruct (json res) as [e|data]; [discriminate Hr|].
    destruct (nullish data); [discriminate Hr|].
    injection Hr as <-. apply found_or_defined.
  - destruct (text res); discriminate Hr.
Qed.

End SummarizeFailures.

(** ** The send-email handler, whatever the request and the provider *)

Section SendEmailAlways.

Variable env : ProcessEnv.
Variable ToString_platform : JsVal -> Thrown + jsstring.
Variable w : World.

(** The whole of the handler: its trace and its answer, by cases on the
    two fields, on [resend] and on what the provider settles with. *)
Lemma run_send_email_full (req_body : JsVal) :
  run w (post_api_send_email env ToString_platform req_body)
  = if ToBoolean (default JUndefined (own req_body (lit "email"))) then
      if ToBoolean (default JUndefined (own req_body (lit "summary"))) then
        match default JUndefined (own req_body (lit "summary")) with
        | JStr s =>
            if forallb is_ws s then
              ([incoming req_body],
               inr (error_response 400 "Summary content required"))
            else
              match resend env with
              | None =>
                  ([incoming req_body],
                   inr (error_response 500 "Email service not configured"))
              | Some client =>
                  let m :=
                    mail env (default JUndefined (own req_body (lit "email")))
                      s in
                  match provider w client m with
                  | inl err =>
                      ([incoming req_body; sending; EvSend client m;
                        send_failed err],
                       inr (error_response 500 "Failed to send email"))
                  | inr out =>
                      if nullish out then
                        ([incoming req_body; sending; EvSend client m;
                          resend_response out; send_failed TypeError],
                         inr (error_response 500 "Failed to send email"))
                      else if ToBoolean
                                (default JUndefined (own out (lit "error")))
                      then
                        ([incoming req_body; sending; EvSend client m;
                          resend_response out;
                          send_failed
                            (Value (default JUndefined
                                      (own out (lit "error"))))],
                         inr (error_response 500 "Failed to send email"))
                      else
                        ([incoming req_body; sending; EvSend client m;
                          resend_response out],
                         inr {| statusCode := 200;
                                payload :=
                                  obj [ ("ok", JBool true);
                                        ("id",
                                         found_or
                                           (at_path out [Key "data"; Key "id"])
                                           (JStr (lit "sent"))) ] |})
                  end
              end
        | _ =>
            ([incoming req_body; send_failed TypeError],
             inr (error_response 500 "Failed to send email"))
        end
      else
        ([incoming req_body],
         inr (error_response 400 "Summary content required"))
    else
      ([incoming req_body],
       inr (error_response 400 "Recipient email required")).
Proof.
  destruct (ToBoolean (default JUndefined (own req_body (lit "email"))))
    eqn:He.
  2:{ unfold post_api_send_email. cbn [console bind]. rewrite !get_body.
      cbn [lift bind]. rewrite He. reflexivity. }
  destruct (ToBoolean (default JUndefined (own req_body (lit "summary"))))
    eqn:Hs.
  2:{ unfold post_api_send_email. cbn [console bind]. rewrite !get_body.
      cbn [lift bind]. rewrite He. cbn [negb].
      unfold missing_or_blank. rewrite Hs. reflexivity. }
  assert (Hnot : (forall s, default JUndefined (own req_body (lit "summary"))
                            <> JStr s) ->
                 run w (post_api_send_email env ToString_platform req_body)
                 = ([incoming req_body; send_failed TypeError],
                    inr (error_response 500 "Failed to send email"))).
  { intros Hn. unfold post_api_send_email. cbn [console bind].
    rewrite !get_body. cbn [lift bind]. rewrite He. cbn [negb].
    rewrite (missing_or_blank_not_string _ Hs Hn). reflexivity. }
  destruct (default JUndefined (own req_body (lit "summary")))
    as [| |b|x|s|xs|props] eqn:Hsum; try (apply Hnot; discriminate).
  clear Hnot.
  destruct (forallb is_ws s) eqn:Hws.
  { unfold post_api_send_email. cbn [console bind]. rewrite !get_body.
    cbn [lift bind]. rewrite He, Hsum. cbn [negb].
    rewrite missing_or_blank_string, Hws. reflexivity. }
  destruct (own req_body (lit "email")) as [e|] eqn:Hem;
    [|discriminate He].
  destruct (own req_body (lit "summary")) as [s'|] eqn:Hsm;
    [|discriminate Hsum].
  cbn [default from_option id] in He, Hsum |- *. subst s'.
  rewrite (send_email_validated env ToString_platform req_body e s
             Hem He Hsm Hws).
  destruct (resend env) as [client|]; [|reflexivity].
  cbn [try_catch run fst snd].
  destruct (provider w client (mail env e s)) as [err|out]; [reflexivity|].
  cbn [lift bind try_catch run fst snd].
  destruct (nullish out) eqn:Hn.
  { unfold get. rewrite Hn. reflexivity. }
  rewrite !(get_own out) by exact Hn.
  cbn [lift bind try_catch run fst snd].
  destruct (ToBoolean (default JUndefined (own out (lit "error"))));
    [reflexivity|].
  cbn [lift bind try_catch run fst snd res_json res_status_json].
  rewrite get_opt_own, or_else_default. cbn [at_path].
  unfold incoming, sending, resend_response. do 5 f_equal.
  destruct (own out (lit "data")) as [d|]; [|reflexivity].
  cbn [default from_option id]. destruct (own d (lit "id")); reflexivity.
Qed.

End SendEmailAlways.

(** Every way through the send-email handler, one goal for each. *)
Ltac send_email_ways req_body env w :=
  rewrite !run_send_email_full;
  destruct (ToBoolean (default JUndefined (own req_body (lit "email"))))
    eqn:He;
  [ destruct (ToBoolean (default JUndefined (own req_body (lit "summary"))))
      eqn:Hs;
    [ destruct (default JUndefined (own req_body (lit "summary")))
        as [| |b|x|s|xs|props] eqn:Hsum;
      [ | | | | destruct (forallb is_ws s) eqn:Hws;
                [ | destruct (resend env) as [client|] eqn:Hr;
                    [ cbv zeta;
                      match goal with
                      | |- context [provider w client ?m] =>
                          destruct (provider w client m) as [err|out] eqn:Hp;
                          [ | destruct (nullish out) eqn:Hn;
                              [ | destruct (ToBoolean (default JUndefined
                                                (own out (lit "error"))))
                                    eqn:Herr ] ]
                      end
                    | ] ]
      | | ]
    | ]
  | ].

Lemma resend_is_set (env : ProcessEnv) :
  (exists client, resend env = Some client)
  <-> is_set (env_RESEND_API_KEY env) = true.
Proof.
  unfold resend, RESEND_API_KEY, is_set.
  destruct (env_RESEND_API_KEY env) as [[|c r]|]; cbn; split;
    try discriminate; try (intros [? H]; discriminate H); eauto.
Qed.

Section SendEmailProperties.

Variable env : ProcessEnv.
Variable ToString_platform : JsVal -> Thrown + jsstring.
Variable w : World.


(** X12: the mail provider is reached exactly when the email is truthy,
    the summary is a string that is not all white space, and the
    provider's key is set; a request that fails validation never causes a
    send. *)
Theorem send_email_reaches_provider_iff (req_body : JsVal) :
  existsb is_send
    (run w (post_api_send_email env ToString_platform req_body)).1 = true
  <-> ToBoolean (default JUndefined (own req_body (lit "email"))) = true
      /\ (exists s,
            default JUndefined (own req_body (lit "summary")) = JStr s
            /\ forallb is_ws s = false)
      /\ is_set (env_RESEND_API_KEY env) = true.
Proof.
  rewrite <- resend_is_set.
  send_email_ways req_body env w; cbn [fst existsb is_send orb incoming
    sending resend_response send_failed];
    try (split; [discriminate|];
         intros (H1 & (s' & H2 & H3) & (c' & H4));
         first [ congruence
               | rewrite H2 in Hs; destruct s';
                 [discriminate H3|discriminate Hs] ]).
  all: split; [intros _|reflexivity];
    (split; [reflexivity|]; split; [eexists; split; [reflexivity|assumption]|];
     eexists; reflexivity).
Qed.

(** X13: the handler answers 400 exactly when the email is falsy, or the
    summary is falsy or a string of white space only. *)
Theorem send_email_400_iff (req_body : JsVal) :
  (exists resp,
     (run w (post_api_send_email env ToString_platform req_body)).2 = inr resp
     /\ statusCode resp = 400%Z)
  <-> (ToBoolean (default JUndefined (own req_body (lit "email"))) = false
       \/ ToBoolean (default JUndefined (own req_body (lit "summary"))) = false
       \/ exists s,
            default JUndefined (own req_body (lit "summary")) = JStr s
            /\ forallb is_ws s = true).
Proof.
  send_email_ways req_body env w; cbn [snd].
  all: try (split; [intros (r & [= <-] & Hst);
                    cbn [statusCode error_response] in Hst; discriminate Hst|];
            intros [H | [H | (s' & H1 & H2)]]; congruence).
  all: try (split; [intros _|intros _; eexists; split; reflexivity]).
  - right. right. eexists. split; [reflexivity|assumption].
  - right. left. reflexivity.
  - left. reflexivity.
Qed.

End SendEmailProperties.

Section SendEmailOutcomes.

Variable env : ProcessEnv.
Variable ToString_platform : JsVal -> Thrown + jsstring.
Variable w : World.

(** X14: the recipient is checked first: with a falsy email the answer is
    400 "Recipient email required" whatever the summary is, even one on
    which [trim] would throw. *)
Theorem send_email_recipient_checked_first (req_body : JsVal) :
  ToBoolean (default JUndefined (own req_body (lit "email"))) = false ->
  run w (post_api_send_email env ToString_platform req_body)
  = ([incoming req_body],
     inr (error_response 400 "Recipient email required")).
Proof. intros H. rewrite run_send_email_full, H. reflexivity. Qed.

(** X15: for a request that passes validation, with the provider's key
    set, the third event of the run is the send, and the mail it hands
    over has the email value, of any type, as its only recipient, the
    fixed subject, the configured sender, and the summary put between
    [<div>] and [</div>] as it is, nothing escaped. *)
Theorem send_email_mail_as_given (req_body e : JsVal) (s : jsstring)
  (client : Resend) :
  own req_body (lit "email") = Some e ->
  ToBoolean e = true ->
  own req_body (lit "summary") = Some (JStr s) ->
  forallb is_ws s = false ->
  resend env = Some client ->
  exists m,
    (run w (post_api_send_email env ToString_platform req_body)).1 !! 2
    = Some (EvSend client m)
    /\ own m (lit "to") = Some (JArr [e])
    /\ own m (lit "html") = Some (JStr (lit "<div>" ++ s ++ lit "</div>"))
    /\ own m (lit "subject") = Some (JStr (lit "Meeting Summary"))
    /\ own m (lit "from") = Some (FROM_EMAIL env).
Proof.
  intros He Ht Hs Hws Hr. exists (mail env e s).
  split; [|repeat split].
  rewrite run_send_email_full, He, Hs.
  cbn [default from_option id]. rewrite Ht, Hws, Hr.
  destruct s as [|c r]; [discriminate Hws|]. cbn [ToBoolean]. cbv zeta.
  destruct (provider w client _) as [err|out]; [reflexivity|].
  destruct (nullish out); [reflexivity|].
  destruct (ToBoolean (default JUndefined (own out (lit "error"))));
    reflexivity.
Qed.

(** X16: the handler answers 200 exactly when the request passes
    validation, the provider's key is set, and the provider settles the
    one send with a value other than [null] and [undefined] whose [error]
    is falsy. *)
Theorem send_email_200_iff (req_body : JsVal) :
  (exists resp,
     (run w (post_api_send_email env ToString_platform req_body)).2 = inr resp
     /\ statusCode resp = 200%Z)
  <-> exists s client out,
        ToBoolean (default JUndefined (own req_body (lit "email"))) = true
        /\ default JUndefined (own req_body (lit "summary")) = JStr s
        /\ forallb is_ws s = false
        /\ resend env = Some client
        /\ provider w client
             (mail env (default JUndefined (own req_body (lit "email"))) s)
           = inr out
        /\ nullish out = false
        /\ ToBoolean (default JUndefined (own out (lit "error"))) = false.
Proof.
  send_email_ways req_body env w; cbn [snd].
  all: try (split; [intros (r & [= <-] & Hst);
                    cbn [statusCode error_response] in Hst; discriminate Hst|];
            intros (s' & c' & o' & H1 & H2 & H3 & H4 & H5 & H6 & H7);
            first [ congruence
                  | rewrite H2 in Hs; destruct s';
                    [discriminate H3|discriminate Hs]
                  | injection H2 as <-; rewrite Hr in H4; injection H4 as <-;
                    rewrite Hp in H5; first [discriminate H5
                                            |injection H5 as <-; congruence] ]).
  split; [intros _|intros _; eexists; split; reflexivity].
  exists s, client, out. auto 10.
Qed.

(** X17: a 500 that leaves no entry on the error console is the answer to
    a valid request when the provider's key is not set, and only that:
    every other failure is logged. *)
Theorem send_email_unlogged_500_iff (req_body : JsVal) :
  ((exists resp,
      (run w (post_api_send_email env ToString_platform req_body)).2 = inr resp
      /\ statusCode resp = 500%Z)
   /\ existsb is_error_log
        (run w (post_api_send_email env ToString_platform req_body)).1 = false)
  <-> ToBoolean (default JUndefined (own req_body (lit "email"))) = true
      /\ (exists s,
            default JUndefined (own req_body (lit "summary")) = JStr s
            /\ forallb is_ws s = false)
      /\ resend env = None.
Proof.
  send_email_ways req_body env w;
    cbn [fst snd existsb is_error_log orb incoming sending resend_response
         send_failed].
  all: try (split; [intros [_ H]; discriminate H|];
            intros (H1 & (s' & H2 & H3) & H4); congruence).
  all: try (split; [intros [(r & [= <-] & Hst) _];
                    cbn [statusCode error_response] in Hst; discriminate Hst|];
            intros (H1 & (s' & H2 & H3) & H4);
            first [ congruence
                  | rewrite H2 in Hs; destruct s';
                    [discriminate H3|discriminate Hs] ]).
  split; [intros _|intros _; split; [eexists; split; reflexivity|reflexivity]].
  split; [reflexivity|]. split; [|reflexivity].
  exists s. split; [reflexivity|assumption].
Qed.

(** X18: in an answer 200 the [ok] field is [true] and the [id] is always
    truthy: the provider's id, or "sent". *)
Theorem send_email_200_id_truthy (req_body : JsVal) (resp : HttpResponse) :
  (run w (post_api_send_email env ToString_platform req_body)).2 = inr resp ->
  statusCode resp = 200%Z ->
  own (payload resp) (lit "ok") = Some (JBool true)
  /\ exists id, own (payload resp) (lit "id") = Some id
                /\ ToBoolean id = true.
Proof.
  send_email_ways req_body env w; cbn [snd];
    try (intros [= <-] Hst; cbn [statusCode error_response] in Hst;
         discriminate Hst).
  intros [= <-] _. split; [reflexivity|].
  exists (found_or (at_path out [Key "data"; Key "id"]) (JStr (lit "sent"))).
  split; [reflexivity|].
  destruct (found_or_defined (at_path out [Key "data"; Key "id"])
              (JStr (lit "sent"))) as [H | ->]; [exact H|reflexivity].
Qed.

End SendEmailOutcomes.

(** ** The prompt *)

(** X19: the user prompt does not keep the transcript apart from the extra
    instruction: a transcript that contains the instruction heading gives
    the same prompt as a shorter transcript whose instruction starts with
    the rest, so text inside a transcript can pass for an instruction. *)
Theorem buildUserPrompt_heading_forgeable
  (ToString_platform : JsVal -> Thrown + jsstring) (a b c : jsstring) :
  buildUserPrompt ToString_platform
    (JStr (a ++ instruction_heading ++ b)) (JStr c)
  = buildUserPrompt ToString_platform
      (JStr a) (JStr (b ++ instruction_heading ++ c))
  /\ JStr (a ++ instruction_heading ++ b) <> JStr a.
Proof.
  split.
  - unfold buildUserPrompt, or_else. cbn [ToString].
    assert (Hc : ToString ToString_platform
                   (if ToBoolean (JStr c) then JStr c else JStr [])
                 = inr c) by (destruct c; reflexivity).
    assert (Hb : ToBoolean (JStr (b ++ instruction_heading ++ c)) = true)
      by (destruct b; reflexivity).
    rewrite Hc, Hb. cbn [ToString]. f_equal.
    unfold instruction_heading. rewrite <- !app_assoc. reflexivity.
  - intros [= H]. apply (f_equal (@length N)) in H.
    rewrite !length_app in H. cbn in H. lia.
Qed.

(** ** Start-up and missing settings *)

(** X20: loading the module never throws, and it stays silent exactly
    when both [GROQ_API_KEY] and [FROM_EMAIL] are set and not empty: a
    missing [RESEND_API_KEY] is not warned about. *)
Theorem startup_silent_iff (env : ProcessEnv) (w : World) :
  (run w (startup_warnings env)).2 = inr tt
  /\ ((run w (startup_warnings env)).1 = []
      <-> is_set (env_GROQ_API_KEY env) = true
          /\ is_set (env_FROM_EMAIL env) = true).
Proof.
  unfold startup_warnings, GROQ_API_KEY, FROM_EMAIL.
  destruct (env_GROQ_API_KEY env) as [[|c r]|];
    destruct (env_FROM_EMAIL env) as [[|c' r']|];
    (split; [reflexivity|]); cbn;
    (split; [try discriminate; auto|intros [H1 H2]; congruence]).
Qed.

(** X21: a missing [GROQ_API_KEY] stops nothing: start-up only warns, and
    each call of the LLM client still goes out, with the header
    [Authorization: Bearer undefined]. *)
Theorem missing_key_still_calls (env : ProcessEnv)
  (ToString_platform : JsVal -> Thrown + jsstring) (w : World)
  (messages : JsVal) :
  env_GROQ_API_KEY env = None ->
  (run w (startup_warnings env)).2 = inr tt
  /\ head (run w (startup_warnings env)).1
     = Some (EvConsole console_warn
               [LVal (JStr (warning_sign ++ lit " Missing GROQ_API_KEY"))])
  /\ exists init,
       (run w (callGroq env ToString_platform messages)).1
       = [EvFetch groq_url init]
       /\ headers init
          = [ (lit "Authorization", lit "Bearer undefined");
              (lit "Content-Type", lit "application/json") ].
Proof.
  intros Hk. split; [|split].
  - unfold startup_warnings, GROQ_API_KEY, FROM_EMAIL. rewrite Hk.
    destruct (env_FROM_EMAIL env) as [[|c r]|]; reflexivity.
  - unfold startup_warnings, GROQ_API_KEY, FROM_EMAIL. rewrite Hk.
    destruct (env_FROM_EMAIL env) as [[|c r]|]; reflexivity.
  - exists (groq_request env messages). split.
    + rewrite run_callGroq_full. reflexivity.
    + unfold groq_request. rewrite Hk. reflexivity.
Qed.

(** ** The further properties at sample inputs *)

(** An empty completion object gives the defaults. *)
Lemma callGroq_result_defined_witness :
  (ToBoolean (JStr []) = true \/ JStr [] = JStr [])
  /\ (ToBoolean (JNum 0) = true \/ JNum 0 = JNum 0)
  /\ (ToBoolean (JNum 0) = true \/ JNum 0 = JNum 0).
Proof.
  apply (callGroq_result_defined sample_env sample_ToString
           (world_of (inr (response_of 200 [] (inr (obj [])))) (inl TypeError))
           sample_messages
           {| content := JStr []; promptTokens := JNum 0;
              completionTokens := JNum 0 |}).
  vm_compute. reflexivity.
Defined.

(** With the network down the handler answers 500 after its one try. *)
Lemma summarize_client_failure_500_witness :
  run offline
    (post_api_summarize sample_env sample_ToString sample_summarize_body)
  = ([ EvFetch groq_url (groq_request sample_env sample_messages);
       EvConsole console_error [LErr TypeError] ],
     inr (error_response 500 "Failed to summarize")).
Proof.
  apply (summarize_client_failure_500 sample_env sample_ToString offline
           sample_summarize_body (lit "Standup notes") sample_messages
           TypeError).
  - reflexivity.
  - reflexivity.
  - reflexivity.
  - vm_compute. reflexivity.
Defined.

(** A prompt object with an own [toString] key cannot be converted. *)
Lemma summarize_prompt_not_convertible_500_witness :
  run offline
    (post_api_summarize sample_env sample_ToString_strict
       (obj [ ("transcript", JStr (lit "Standup notes"));
              ("prompt", obj [ ("toString", JNum 1) ]) ]))
  = ([ EvConsole console_error [LErr TypeError] ],
     inr (error_response 500 "Failed to summarize")).
Proof.
  apply (summarize_prompt_not_convertible_500 sample_env
           sample_ToString_strict offline _ (lit "Standup notes")
           (obj [ ("toString", JNum 1) ]) TypeError).
  - reflexivity.
  - reflexivity.
  - reflexivity.
  - reflexivity.
  - reflexivity.
Defined.

(** The answer to the sample completion names the model of the request. *)
Lemma summarize_200_after_one_request_witness :
  exists m summary,
    (run (world_of (inr (response_of 200 [] (inr sample_completion)))
                   (inl TypeError))
         (post_api_summarize sample_env sample_ToString
            sample_summarize_body)).1
    = [EvFetch groq_url (groq_request sample_env m)]
    /\ own (obj [ ("summary", JStr (lit "X"));
                  ("model", GROQ_MODEL sample_env);
                  ("tokens", obj [ ("prompt", JNum 10);
                                   ("completion", JNum 5) ]) ])
           (lit "model")
       = own (body (groq_request sample_env m)) (lit "model")
    /\ own (obj [ ("summary", JStr (lit "X"));
                  ("model", GROQ_MODEL sample_env);
                  ("tokens", obj [ ("prompt", JNum 10);
                                   ("completion", JNum 5) ]) ])
           (lit "summary")
       = Some summary
    /\ (ToBoolean summary = true \/ summary = JStr []).
Proof.
  apply (summarize_200_after_one_request sample_env sample_ToString
           (world_of (inr (response_of 200 [] (inr sample_completion)))
                     (inl TypeError))
           sample_summarize_body
           {| statusCode := 200;
              payload :=
                obj [ ("summary", JStr (lit "X"));
                      ("model", GROQ_MODEL sample_env);
                      ("tokens", obj [ ("prompt", JNum 10);
                                       ("completion", JNum 5) ]) ] |}).
  - vm_compute. reflexivity.
  - reflexivity.
Defined.

(** No email and a summary that is a number: 400 for the recipient. *)
Lemma send_email_recipient_checked_first_witness :
  run offline
    (post_api_send_email sample_env sample_ToString
       (obj [ ("summary", JNum 42) ]))
  = ([incoming (obj [ ("summary", JNum 42) ])],
     inr (error_response 400 "Recipient email required")).
Proof.
  apply (send_email_recipient_checked_first sample_env sample_ToString
           offline (obj [ ("summary", JNum 42) ])).
  reflexivity.
Defined.

(** Markup in the summary and a number as recipient go out as they are. *)
Lemma send_email_mail_as_given_witness :
  exists m,
    (run offline
       (post_api_send_email sample_env sample_ToString
          (obj [ ("email", JNum 7);
                 ("summary", JStr (lit "<script>x</script>")) ]))).1 !! 2
    = Some (EvSend {| apiKey := JStr (lit "re_sample") |} m)
    /\ own m (lit "to") = Some (JArr [JNum 7])
    /\ own m (lit "html")
       = Some (JStr (lit "<div>" ++ lit "<script>x</script>" ++ lit "</div>"))
    /\ own m (lit "subject") = Some (JStr (lit "Meeting Summary"))
    /\ own m (lit "from") = Some (FROM_EMAIL sample_env).
Proof.
  apply (send_email_mail_as_given sample_env sample_ToString offline
           (obj [ ("email", JNum 7);
                  ("summary", JStr (lit "<script>x</script>")) ])
           (JNum 7) (lit "<script>x</script>")
           {| apiKey := JStr (lit "re_sample") |}).
  - reflexivity.
  - reflexivity.
  - reflexivity.
  - reflexivity.
  - reflexivity.
Defined.

(** The id "msg_1" of the sample answer is truthy. *)
Lemma send_email_200_id_truthy_witness :
  own (obj [ ("ok", JBool true); ("id", JStr (lit "msg_1")) ]) (lit "ok")
  = Some (JBool true)
  /\ exists id,
       own (obj [ ("ok", JBool true); ("id", JStr (lit "msg_1")) ]) (lit "id")
       = Some id
       /\ ToBoolean id = true.
Proof.
  apply (send_email_200_id_truthy sample_env sample_ToString
           (world_of (inl TypeError) (inr sample_sent)) sample_email_body
           {| statusCode := 200;
              payload := obj [ ("ok", JBool true);
                               ("id", JStr (lit "msg_1")) ] |}).
  - vm_compute. reflexivity.
  - reflexivity.
Defined.

(** Without the key the sample call still goes out. *)
Lemma missing_key_still_calls_witness :
  (run offline (startup_warnings sample_env_no_key)).2 = inr tt
  /\ head (run offline (startup_warnings sample_env_no_key)).1
     = Some (EvConsole console_warn
               [LVal (JStr (warning_sign ++ lit " Missing GROQ_API_KEY"))])
  /\ exists init,
       (run offline
          (callGroq sample_env_no_key sample_ToString sample_messages)).1
       = [EvFetch groq_url init]
       /\ headers init
          = [ (lit "Authorization", lit "Bearer undefined");
              (lit "Content-Type", lit "application/json") ].
Proof.
  apply (missing_key_still_calls sample_env_no_key sample_ToString offline
           sample_messages).
  reflexivity.
Defined.
